(** * The drawing controller of the injected visualization subsystem

    A shallow embedding of [src/injected/drawing-controller.ts] and of the
    collaborators it is constructed with.  The controller is a class whose
    methods mutate its own fields and call into injected collaborators; it is
    embedded as a state-and-exception monad over a [World] that holds the
    controller's fields, the state of the objects it owns or talks to, and a
    chronological record of every collaborator call. *)

From stdpp Require Import gmap strings list fin_maps.
From stdpp Require Import pretty sorting.
From Stdlib Require Import Ascii.

(** ** Shared vocabulary *)

(** [VisualizationType] is a numeric TypeScript enum. *)
Definition VisualizationType := nat.

(** An iframe element of the current document, named by the selector that
    reaches it from that document. *)
Definition HTMLIFrameElement := string.

(** [FeatureFlagStoreData] is a [DictionaryStringTo<boolean>]. *)
Abbreviation FeatureFlagStoreData := (gmap string bool).

(** ** html-element-axe-results-helper *)
Module HtmlElementAxeResultsHelper.

(** One scan finding.  [isVisible] and [isVisualizationEnabled] are
    optional booleans ([None] is the unset flag); [framePath] is the
    frame-path metadata: the selector of the child iframe whose document
    holds the target, or [None] when the target is in the current
    document. *)
Record AssessmentVisualizationInstance := {
  selector : string;
  framePath : option string;
  isVisible : option bool;
  isVisualizationEnabled : option bool;
}.

#[global] Instance AssessmentVisualizationInstance_eq_dec :
  EqDecision AssessmentVisualizationInstance.
Proof. solve_decision. Defined.

(** One partition: [frame = None] is the current document. *)
Record HTMLIFrameResult := {
  frame : option HTMLIFrameElement;
  elementResults : list AssessmentVisualizationInstance;
}.

#[global] Instance HTMLIFrameResult_eq_dec : EqDecision HTMLIFrameResult.
Proof. solve_decision. Defined.

(** Modelled from the spec: the grouping step of the missing
    [splitResultsByFrame]: instances sharing the same frame path go under
    one group, instances with no frame path under the [None] group; groups
    are kept in order of first appearance, instances in input order. *)
Fixpoint addToGroup (path : option string) (x : AssessmentVisualizationInstance)
    (groups : list (option string * list AssessmentVisualizationInstance))
  : list (option string * list AssessmentVisualizationInstance) :=
  match groups with
  | [] => [(path, [x])]
  | (path', xs) :: rest =>
      if decide (path = path') then (path', xs ++ [x]) :: rest
      else (path', xs) :: addToGroup path x rest
  end.

Definition groupByFramePath (results : list AssessmentVisualizationInstance)
  : list (option string * list AssessmentVisualizationInstance) :=
  foldl (fun groups x => addToGroup (framePath x) x groups) [] results.

(** Modelled from the spec: the partition of a group.  Its frame is the
    iframe the group's frame path names, or [None] for the current
    document; every group becomes a partition. *)
Definition partitionOf
    (group : option string * list AssessmentVisualizationInstance)
  : HTMLIFrameResult :=
  {| frame := group.1; elementResults := group.2 |}.

(** Modelled from the spec: [splitResultsByFrame] of the missing
    [HtmlElementAxeResultsHelper] (section 4.2).  An iframe is named by its
    selector, so the owning iframe of an instance is read off its frame
    path and the document is not consulted. *)
Definition splitResultsByFrame (document : list HTMLIFrameElement)
    (results : list AssessmentVisualizationInstance) : list HTMLIFrameResult :=
  map partitionOf (groupByFramePath results).

(** Every instance of a group has the group's frame path. *)
Definition owned
    (groups : list (option string * list AssessmentVisualizationInstance)) : Prop :=
  Forall (fun g => Forall (fun x => framePath x = g.1) g.2) groups.

End HtmlElementAxeResultsHelper.

(** ** visualization/drawer *)
Module Drawer.
Import HtmlElementAxeResultsHelper.

(** The argument of [Drawer.initialize], as the controller builds it. *)
Record DrawerInitData := {
  data : option (list AssessmentVisualizationInstance);
  featureFlagStoreData : option FeatureFlagStoreData;
}.

(** Modelled from the spec: a Drawer (the [Drawer] interface and its
    implementations are missing).  It owns the overlay nodes of one
    configId: [overlay] lists the instances that have an overlay node in
    the DOM, [config] is what the last [initialize] stored, [variant] names
    the implementation the provider built. *)
Record Drawer := {
  variant : string;
  config : option DrawerInitData;
  overlay : list AssessmentVisualizationInstance;
}.

(** Modelled from the spec: [initialize(config)] accepts the initial element
    data and the feature-flag snapshot. *)
Definition initialize (cfg : DrawerInitData) (d : Drawer) : Drawer :=
  {| variant := variant d; config := Some cfg; overlay := overlay d |}.

(** Modelled from the spec: the instances [drawLayout()] may render: an
    unset flag is treated as "show". *)
Definition rendered (x : AssessmentVisualizationInstance) : bool :=
  negb (bool_decide (isVisible x = Some false))
  && negb (bool_decide (isVisualizationEnabled x = Some false)).

(** Modelled from the spec: [drawLayout()] creates an overlay node over each
    visible, enabled instance it was initialized with. *)
Definition drawLayout (d : Drawer) : Drawer :=
  {| variant := variant d;
     config := config d;
     overlay := filter (fun x => rendered x = true) (default [] (config d ≫= data)) |}.

(** Modelled from the spec: [eraseLayout()] removes all overlay nodes the
    drawer owns; safe on an uninitialized or already erased drawer. *)
Definition eraseLayout (d : Drawer) : Drawer :=
  {| variant := variant d; config := config d; overlay := [] |}.

(** Modelled from the spec: what a [DrawerProvider] builds is a drawer of
    the requested variant. *)
Definition DrawerProvider := string -> Drawer.

End Drawer.

(** ** instance-visibility-checker *)
Module InstanceVisibilityChecker.
Import HtmlElementAxeResultsHelper.

(** The active intervals, one per configId at most. *)
Abbreviation Intervals :=
  (gmap string (VisualizationType * list AssessmentVisualizationInstance)).

(** Modelled from the spec: [createVisibilityCheckerInterval] starts the
    recurring check for a configId, replacing a previous one. *)
Definition createVisibilityCheckerInterval (configId : string)
    (visualizationType : VisualizationType)
    (elementResults : list AssessmentVisualizationInstance)
    (intervals : Intervals) : Intervals :=
  <[configId := (visualizationType, elementResults)]> intervals.

(** Modelled from the spec: [clearVisibilityCheck] stops and removes the
    interval of a configId; a no-op when there is none. *)
Definition clearVisibilityCheck (configId : string)
    (visualizationType : VisualizationType) (intervals : Intervals) : Intervals :=
  delete configId intervals.

End InstanceVisibilityChecker.

(** ** frameCommunicators/frame-communicator *)
Module FrameCommunicator.

(** [MessageRequest<T>]: [frame] is the element read from a list by index,
    so it is [None] where that read yields [undefined]. *)
Record MessageRequest (T : Type) := {
  command : string;
  frame : option HTMLIFrameElement;
  message : T;
}.
Arguments command {T} _.
Arguments frame {T} _.
Arguments message {T} _.

End FrameCommunicator.

(** ** drawing-controller *)
Module DrawingController.
Module Helper := HtmlElementAxeResultsHelper.
Import FrameCommunicator.

Definition triggerVisualizationCommand : string := "insights.draw".

Record VisualizationWindowMessage := {
  visualizationType : VisualizationType;
  isEnabled : bool;
  configId : string;
  elementResults : option (list Helper.AssessmentVisualizationInstance);
  featureFlagStoreData : option FeatureFlagStoreData;
}.

(** A test step of an assessment; only its [key] is read. *)
Record TestStep := { key : string }.

(** The two members of a visualization configuration the controller uses
    ([getIdentifier] and [getDrawer], both with an optional test step). *)
Record VisualizationConfiguration := {
  getIdentifier : option string -> string;
  getDrawer : Drawer.DrawerProvider -> option string -> Drawer.Drawer;
}.

(** What the constructor injects, and the constants of missing modules.
    [getStepMap] gives a step map as its entries in [Object.keys] order. *)
Class Dependencies := {
  splitResultsByFrame :
    list HTMLIFrameElement -> list Helper.AssessmentVisualizationInstance ->
    list Helper.HTMLIFrameResult;
  numericValues : list VisualizationType;
  getConfiguration : VisualizationType -> VisualizationConfiguration;
  isValidType : VisualizationType -> bool;
  getStepMap : VisualizationType -> list (string * TestStep);
  drawerProvider : Drawer.DrawerProvider;
  showInstanceVisibility : string;
}.

(** The handlers the controller registers. *)
Inductive Handler := onTriggerVisualizationHandler.

(** The data handed to a responder. *)
Inductive ResponseData := null | payload (s : string).

(** A call into a collaborator.  A drawer is named by the registry key it
    is stored under. *)
Inductive Call :=
| subscribe (cmd : string) (handler : Handler)
| sendMessage (request : MessageRequest VisualizationWindowMessage)
| createVisibilityCheckerInterval (configId : string)
    (visualizationType : VisualizationType)
    (elementResults : list Helper.AssessmentVisualizationInstance)
| clearVisibilityCheck (configId : string) (visualizationType : VisualizationType)
| drawerInitialize (drawer : string) (cfg : Drawer.DrawerInitData)
| drawerDrawLayout (drawer : string)
| drawerEraseLayout (drawer : string)
| respond (responder : string) (data : ResponseData).

(** The controller's fields ([_drawers], [_featureFlagStoreData]), the
    iframes currently in the document, the visibility checker's intervals,
    the frame communicator's subscriptions, and the calls made so far,
    oldest first.

    [_drawers] is a plain object used as a map.  [_drawers w !! id] is what
    the read [this._drawers[id]] finds; [_drawerKeys] lists the object's own
    property keys in the order they were created, which is what an
    enumeration of the object goes by. *)
Record World := {
  _drawers : gmap string Drawer.Drawer;
  _drawerKeys : list string;
  _featureFlagStoreData : option FeatureFlagStoreData;
  iframes : list HTMLIFrameElement;
  intervals : InstanceVisibilityChecker.Intervals;
  subscriptions : gmap string Handler;
  calls : list Call;
}.

Definition with_drawers (f : gmap string Drawer.Drawer -> gmap string Drawer.Drawer)
    (w : World) : World :=
  {| _drawers := f (_drawers w);
     _drawerKeys := _drawerKeys w;
     _featureFlagStoreData := _featureFlagStoreData w;
     iframes := iframes w;
     intervals := intervals w;
     subscriptions := subscriptions w;
     calls := calls w |}.

Definition with_featureFlagStoreData (ff : option FeatureFlagStoreData)
    (w : World) : World :=
  {| _drawers := _drawers w;
     _drawerKeys := _drawerKeys w;
     _featureFlagStoreData := ff;
     iframes := iframes w;
     intervals := intervals w;
     subscriptions := subscriptions w;
     calls := calls w |}.

Definition with_iframes (document : list HTMLIFrameElement) (w : World) : World :=
  {| _drawers := _drawers w;
     _drawerKeys := _drawerKeys w;
     _featureFlagStoreData := _featureFlagStoreData w;
     iframes := document;
     intervals := intervals w;
     subscriptions := subscriptions w;
     calls := calls w |}.

Definition with_intervals
    (f : InstanceVisibilityChecker.Intervals -> InstanceVisibilityChecker.Intervals)
    (w : World) : World :=
  {| _drawers := _drawers w;
     _drawerKeys := _drawerKeys w;
     _featureFlagStoreData := _featureFlagStoreData w;
     iframes := iframes w;
     intervals := f (intervals w);
     subscriptions := subscriptions w;
     calls := calls w |}.

Definition with_subscriptions (f : gmap string Handler -> gmap string Handler)
    (w : World) : World :=
  {| _drawers := _drawers w;
     _drawerKeys := _drawerKeys w;
     _featureFlagStoreData := _featureFlagStoreData w;
     iframes := iframes w;
     intervals := intervals w;
     subscriptions := f (subscriptions w);
     calls := calls w |}.

Definition record (c : Call) (w : World) : World :=
  {| _drawers := _drawers w;
     _drawerKeys := _drawerKeys w;
     _featureFlagStoreData := _featureFlagStoreData w;
     iframes := iframes w;
     intervals := intervals w;
     subscriptions := subscriptions w;
     calls := calls w ++ [c] |}.

(** *** The registry object

    [this._drawers[id] = drawer].  Under ["__proto__"] the assignment goes
    to the accessor [Object.prototype] has under that name: the drawer
    becomes the prototype of the registry, a read of
    [this._drawers["__proto__"]] finds it, and the registry gets no own
    key.  Under every other name the assignment creates the own key, or
    updates it where it is. *)
Definition assignDrawer (id : string) (drawer : Drawer.Drawer) (w : World) : World :=
  {| _drawers := <[id := drawer]> (_drawers w);
     _drawerKeys :=
       if bool_decide (id = "__proto__" ∨ id ∈ _drawerKeys w) then _drawerKeys w
       else _drawerKeys w ++ [id];
     _featureFlagStoreData := _featureFlagStoreData w;
     iframes := iframes w;
     intervals := intervals w;
     subscriptions := subscriptions w;
     calls := calls w |}.

(** The world after a sequence of assignments. *)
Definition assignAll (entries : list (string * Drawer.Drawer)) (w : World) : World :=
  foldl (fun w e => assignDrawer e.1 e.2 w) w entries.

(** What the two views of the registry have to do with each other: its
    own keys are the names under which a read finds a drawer, but for
    ["__proto__"], and each is listed once. *)
Definition registryObject (w : World) : Prop :=
  NoDup (_drawerKeys w)
  ∧ forall id, id ∈ _drawerKeys w <-> id ≠ "__proto__" ∧ is_Some (_drawers w !! id).

(** An array index is the canonical decimal text of an integer from 0 to
    2^32 - 2. *)
Definition digit (c : ascii) : option N :=
  let n := N_of_ascii c in
  if ((48 <=? n) && (n <=? 57))%N then Some (n - 48)%N else None.

Fixpoint parseDigits (acc : N) (s : string) : option N :=
  match s with
  | EmptyString => Some acc
  | String c rest =>
      match digit c with
      | Some d => parseDigits (acc * 10 + d)%N rest
      | None => None
      end
  end.

Definition arrayIndex (key : string) : option N :=
  match key with
  | EmptyString => None
  | _ =>
      match parseDigits 0 key with
      | Some n =>
          if (n <? 4294967295)%N && bool_decide (pretty n = key) then Some n else None
      | None => None
      end
  end.

Definition indexLe (a b : N * string) : Prop := (a.1 ≤ b.1)%N.

#[global] Instance indexLe_dec : RelDecision indexLe.
Proof. intros a b. unfold indexLe. apply _. Defined.

(** The order in which the own keys of an object are enumerated
    ([Object.keys], [for in], lodash's [forOwn]): the array indices in
    ascending numeric order, then the other keys in the order they were
    created. *)
Definition ownKeys (created : list string) : list string :=
  (merge_sort indexLe
     (omap (fun k => if arrayIndex k is Some n then Some (n, k) else None) created)).*2
  ++ filter (fun k => arrayIndex k = None) created.

(** *** The monad of method bodies

    A method runs on a world and either completes normally or throws; the
    effects made before a throw stay. *)
Inductive Exception := TypeError (reason : string).

Inductive Completion (A : Type) :=
| Normal (a : A)
| Throw (e : Exception).
Arguments Normal {A} _.
Arguments Throw {A} _.

Definition Js (A : Type) : Type := World -> World * Completion A.

#[global] Instance Js_ret : MRet Js := fun A a w => (w, Normal a).

#[global] Instance Js_bind : MBind Js := fun A B k m w =>
  match m w with
  | (w', Normal a) => k a w'
  | (w', Throw e) => (w', Throw e)
  end.

Definition throw {A} (e : Exception) : Js A := fun w => (w, Throw e).
Definition gets {A} (f : World -> A) : Js A := fun w => (w, Normal (f w)).
Definition modify (f : World -> World) : Js unit := fun w => (f w, Normal tt).

(** Reading a property of, or calling a method on, a value that may be
    [undefined]. *)
Definition deref {A} (what : string) (v : option A) : Js A :=
  match v with
  | Some a => mret a
  | None => throw (TypeError what)
  end.

(** The effect of a collaborator call on the collaborator's state. *)
Definition effect (c : Call) (w : World) : World :=
  match c with
  | subscribe cmd handler => with_subscriptions (insert cmd handler) w
  | sendMessage _ => w
  | createVisibilityCheckerInterval id vt rs =>
      with_intervals (InstanceVisibilityChecker.createVisibilityCheckerInterval id vt rs) w
  | clearVisibilityCheck id vt =>
      with_intervals (InstanceVisibilityChecker.clearVisibilityCheck id vt) w
  | drawerInitialize d cfg => with_drawers (alter (Drawer.initialize cfg) d) w
  | drawerDrawLayout d => with_drawers (alter Drawer.drawLayout d) w
  | drawerEraseLayout d => with_drawers (alter Drawer.eraseLayout d) w
  | respond _ _ => w
  end.

Definition call (c : Call) : Js unit := modify (fun w => record c (effect c w)).

(** The world after a sequence of collaborator calls. *)
Definition replay (cs : list Call) (w : World) : World :=
  foldl (fun w c => record c (effect c w)) w cs.

(** The [Drawer.initialize] calls of a record, and the requests sent. *)
Definition initializations (cs : list Call) : list (string * Drawer.DrawerInitData) :=
  omap (fun c => if c is drawerInitialize d cfg then Some (d, cfg) else None) cs.

Definition sentRequests (cs : list Call)
  : list (MessageRequest VisualizationWindowMessage) :=
  omap (fun c => if c is sendMessage r then Some r else None) cs.

(** The drawer a call acts on, the configId whose interval it starts or
    clears, and whether it changes the subscriptions. *)
Definition onDrawer (c : Call) : option string :=
  match c with
  | drawerInitialize d _ | drawerDrawLayout d | drawerEraseLayout d => Some d
  | _ => None
  end.

Definition onInterval (c : Call) : option string :=
  match c with
  | createVisibilityCheckerInterval id _ _ | clearVisibilityCheck id _ => Some id
  | _ => None
  end.

Definition subscribes (c : Call) : bool :=
  if c is subscribe _ _ then true else false.

(** The responder invocations of a record. *)
Definition responses (cs : list Call) : list (string * ResponseData) :=
  omap (fun c => if c is respond r data then Some (r, data) else None) cs.

(** [xs.forEach(f)] *)
Fixpoint forEach {A} (xs : list A) (f : A -> Js unit) : Js unit :=
  match xs with
  | [] => mret tt
  | x :: rest => f x ;; forEach rest f
  end.

(** [for (let pos = start; pos < start + count; pos++) body(pos)] *)
Fixpoint forLoop (start count : nat) (body : nat -> Js unit) : Js unit :=
  match count with
  | 0 => mret tt
  | S n => body start ;; forLoop (S start) n body
  end.

Section Controller.
Context `{Dependencies}.

(** The controller as the constructor leaves it, in a document. *)
Definition constructed (document : list HTMLIFrameElement) : World :=
  {| _drawers := ∅;
     _drawerKeys := [];
     _featureFlagStoreData := None;
     iframes := document;
     intervals := ∅;
     subscriptions := ∅;
     calls := [] |}.

(** [setupDrawers]: the steps of a type are visited in [Object.keys] order,
    each key with the step stored under it; a later entry with the same
    identifier overwrites an earlier one. *)
Definition setupDrawers : Js unit :=
  forEach numericValues (fun visualizationType =>
    let config := getConfiguration visualizationType in
    if isValidType visualizationType then
      let steps := getStepMap visualizationType in
      forEach steps (fun entry =>
        let step := entry.2 in
        let id := getIdentifier config (Some (key step)) in
        modify (assignDrawer id (getDrawer config drawerProvider (Some id))))
    else
      let id := getIdentifier config None in
      modify (assignDrawer id (getDrawer config drawerProvider None))).

Definition initialize : Js unit :=
  call (subscribe triggerVisualizationCommand onTriggerVisualizationHandler) ;;
  setupDrawers.

(** [getAllFrames]: the node list of the document's iframes; a node list
    read at an index it does not have gives [undefined] ([None]). *)
Definition getAllFrames : Js (list HTMLIFrameElement) := gets iframes.

(** The method [getDrawer] (the name is taken by the configuration's member):
    the drawer stored under [configId], or [None] for [undefined]. *)
Definition getDrawer_ (configId : string) : Js (option string) :=
  gets (fun w => if _drawers w !! configId is Some _ then Some configId else None).

(** [invokeMethodIfExists]: a responder is named by a string. *)
Definition invokeMethodIfExists (method : option string) (data : ResponseData)
  : Js unit :=
  match method with
  | Some responder => call (respond responder data)
  | None => mret tt
  end.

(** [getInitialElements]: [x !== false] holds of an unset flag. *)
Definition getInitialElements
    (currentFrameResults : option (list Helper.AssessmentVisualizationInstance))
  : option (list Helper.AssessmentVisualizationInstance) :=
  match currentFrameResults with
  | None => None
  | Some results =>
      Some (filter (fun result =>
              negb (bool_decide (Helper.isVisible result = Some false))
              && negb (bool_decide (Helper.isVisualizationEnabled result = Some false))
              = true) results)
  end.

Definition createFrameRequestMessage (frame : option HTMLIFrameElement)
    (message : VisualizationWindowMessage)
  : MessageRequest VisualizationWindowMessage :=
  {| command := triggerVisualizationCommand; frame := frame; message := message |}.

Definition enableVisualizationInCurrentFrame
    (currentFrameResults : option (list Helper.AssessmentVisualizationInstance))
    (configId : string) : Js unit :=
  found ← getDrawer_ configId;
  drawer ← deref "drawer.initialize" found;
  ff ← gets _featureFlagStoreData;
  call (drawerInitialize drawer
          {| Drawer.data := getInitialElements currentFrameResults;
             Drawer.featureFlagStoreData := ff |}) ;;
  call (drawerDrawLayout drawer).

Definition enableVisualizationInIFrames (visualizationType : VisualizationType)
    (frame : option HTMLIFrameElement)
    (frameResults : option (list Helper.AssessmentVisualizationInstance))
    (configId : string) : Js unit :=
  ff ← gets _featureFlagStoreData;
  let message :=
    {| elementResults := frameResults;
       isEnabled := true;
       visualizationType := visualizationType;
       featureFlagStoreData := ff;
       configId := configId |} in
  call (sendMessage (createFrameRequestMessage frame message)).

(** [enableVisualization]: a feature flag is truthy when it is present and
    [true]. *)
Definition enableVisualization (visualizationType : VisualizationType)
    (elementResultsByFrames : option (list Helper.HTMLIFrameResult))
    (configId : string) : Js unit :=
  match elementResultsByFrames with
  | Some byFrames =>
      forLoop 0 (length byFrames) (fun pos =>
        resultsForFrame ← deref "resultsForFrame.frame" (byFrames !! pos);
        match Helper.frame resultsForFrame with
        | None =>
            ff ← gets _featureFlagStoreData;
            flags ← deref "this._featureFlagStoreData[...]" ff;
            (if flags !! showInstanceVisibility is Some true then
               call (createVisibilityCheckerInterval configId visualizationType
                       (Helper.elementResults resultsForFrame))
             else mret tt) ;;
            enableVisualizationInCurrentFrame
              (Some (Helper.elementResults resultsForFrame)) configId
        | Some iframe =>
            enableVisualizationInIFrames visualizationType (Some iframe)
              (Some (Helper.elementResults resultsForFrame)) configId
        end)
  | None =>
      enableVisualizationInCurrentFrame None configId ;;
      frames ← getAllFrames;
      forLoop 0 (length frames) (fun pos =>
        enableVisualizationInIFrames visualizationType (frames !! pos) None configId)
  end.

Definition disableVisualizationInCurrentFrame (configId : string) : Js unit :=
  found ← getDrawer_ configId;
  drawer ← deref "drawer.eraseLayout" found;
  call (drawerEraseLayout drawer).

Definition disableVisualizationInIFrames (visualizationType : VisualizationType)
    (configId : string) : Js unit :=
  frames ← getAllFrames;
  forLoop 0 (length frames) (fun i =>
    match frames !! i with
    | Some iframe =>
        let message :=
          {| isEnabled := false;
             visualizationType := visualizationType;
             configId := configId;
             elementResults := None;
             featureFlagStoreData := None |} in
        call (sendMessage (createFrameRequestMessage (Some iframe) message))
    | None => mret tt
    end).

Definition disableVisualization (visualizationType : VisualizationType)
    (configId : string) : Js unit :=
  disableVisualizationInCurrentFrame configId ;;
  disableVisualizationInIFrames visualizationType configId ;;
  call (clearVisibilityCheck configId visualizationType).

(** [processRequest]: an array is truthy even when empty, so
    [message.elementResults ? ... : null] tests presence only. *)
Definition processRequest (message : VisualizationWindowMessage) : Js unit :=
  modify (with_featureFlagStoreData (featureFlagStoreData message)) ;;
  if isEnabled message then
    document ← gets iframes;
    let elementResultsByFrames :=
      match elementResults message with
      | Some results => Some (splitResultsByFrame document results)
      | None => None
      end in
    enableVisualization (visualizationType message) elementResultsByFrames
      (configId message)
  else
    disableVisualization (visualizationType message) (configId message).

(** [onTriggerVisualization]: the [error] and [sourceWindow] arguments are
    not read and are left out. *)
Definition onTriggerVisualization (result : VisualizationWindowMessage)
    (responder : option string) : Js unit :=
  processRequest result ;;
  invokeMethodIfExists responder null.

(** [dispose]: [forOwn] lists the own keys of the registry, then visits
    them in that order; a drawer held as the registry's prototype is under
    no own key.  (The callback returns nothing, so the iteration is never
    cut short.) *)
Definition dispose : Js unit :=
  keys ← gets (fun w => ownKeys (_drawerKeys w));
  forEach keys (fun id => call (drawerEraseLayout id)).

(** *** The calls of a request

    The record a request leaves, written as a function of the request
    and of the world it is delivered to; [processRequest_trace] below
    proves that [processRequest] makes exactly these calls. *)

Definition registered (configId : string) (w : World) : bool :=
  bool_decide (is_Some (_drawers w !! configId)).

(** The message [enableVisualizationInIFrames] builds. *)
Definition enableMessage (visualizationType : VisualizationType)
    (configId : string) (ff : option FeatureFlagStoreData)
    (frameResults : option (list Helper.AssessmentVisualizationInstance))
  : VisualizationWindowMessage :=
  {| elementResults := frameResults;
     isEnabled := true;
     visualizationType := visualizationType;
     featureFlagStoreData := ff;
     configId := configId |}.

(** The message [disableVisualizationInIFrames] builds. *)
Definition disableMessage (visualizationType : VisualizationType)
    (configId : string) : VisualizationWindowMessage :=
  {| isEnabled := false;
     visualizationType := visualizationType;
     configId := configId;
     elementResults := None;
     featureFlagStoreData := None |}.

Definition drawCalls (configId : string) (ff : option FeatureFlagStoreData)
    (currentFrameResults : option (list Helper.AssessmentVisualizationInstance))
  : list Call :=
  [drawerInitialize configId
     {| Drawer.data := getInitialElements currentFrameResults;
        Drawer.featureFlagStoreData := ff |};
   drawerDrawLayout configId].

Definition trackingCalls (visualizationType : VisualizationType)
    (configId : string) (flags : FeatureFlagStoreData)
    (results : list Helper.AssessmentVisualizationInstance) : list Call :=
  if flags !! showInstanceVisibility is Some true
  then [createVisibilityCheckerInterval configId visualizationType results]
  else [].

Fixpoint enableTrace (known : bool) (ff : option FeatureFlagStoreData)
    (visualizationType : VisualizationType) (configId : string)
    (byFrames : list Helper.HTMLIFrameResult) : list Call * Completion unit :=
  match byFrames with
  | [] => ([], Normal tt)
  | p :: rest =>
      let continue := enableTrace known ff visualizationType configId rest in
      match Helper.frame p with
      | Some iframe =>
          (sendMessage (createFrameRequestMessage (Some iframe)
                          (enableMessage visualizationType configId ff
                             (Some (Helper.elementResults p))))
           :: continue.1, continue.2)
      | None =>
          match ff with
          | None => ([], Throw (TypeError "this._featureFlagStoreData[...]"))
          | Some flags =>
              let tracking :=
                trackingCalls visualizationType configId flags (Helper.elementResults p) in
              if known then
                (tracking ++ drawCalls configId ff (Some (Helper.elementResults p))
                   ++ continue.1, continue.2)
              else (tracking, Throw (TypeError "drawer.initialize"))
          end
      end
  end.

Definition requestTrace (message : VisualizationWindowMessage) (w : World)
  : list Call * Completion unit :=
  let known := registered (configId message) w in
  let ff := featureFlagStoreData message in
  if isEnabled message then
    match elementResults message with
    | Some results =>
        enableTrace known ff (visualizationType message) (configId message)
          (splitResultsByFrame (iframes w) results)
    | None =>
        if known then
          (drawCalls (configId message) ff None
             ++ map (fun iframe =>
                  sendMessage (createFrameRequestMessage (Some iframe)
                    (enableMessage (visualizationType message) (configId message) ff None)))
                (iframes w),
           Normal tt)
        else ([], Throw (TypeError "drawer.initialize"))
    end
  else
    if known then
      (drawerEraseLayout (configId message)
         :: map (fun iframe =>
              sendMessage (createFrameRequestMessage (Some iframe)
                (disableMessage (visualizationType message) (configId message))))
            (iframes w)
         ++ [clearVisibilityCheck (configId message) (visualizationType message)],
       Normal tt)
    else ([], Throw (TypeError "drawer.eraseLayout")).

(** *** What section 4.5 asks of an enable request with results

    For the partition of the current document: start visibility tracking
    if the flag is set, then initialize and draw the drawer with the
    visible and enabled instances; for the partition of an iframe: one
    scoped enable message to that iframe. *)
Definition scopedEnableCalls (message : VisualizationWindowMessage)
    (p : Helper.HTMLIFrameResult) : list Call :=
  match Helper.frame p with
  | None =>
      (if featureFlagStoreData message ≫= lookup showInstanceVisibility is Some true
       then [createVisibilityCheckerInterval (configId message)
               (visualizationType message) (Helper.elementResults p)]
       else [])
      ++ [drawerInitialize (configId message)
            {| Drawer.data :=
                 Some (filter (fun x => Helper.isVisible x ≠ Some false
                                        ∧ Helper.isVisualizationEnabled x ≠ Some false)
                         (Helper.elementResults p));
               Drawer.featureFlagStoreData := featureFlagStoreData message |};
          drawerDrawLayout (configId message)]
  | Some iframe =>
      [sendMessage
         {| command := "insights.draw";
            frame := Some iframe;
            message :=
              {| visualizationType := visualizationType message;
                 isEnabled := true;
                 configId := configId message;
                 elementResults := Some (Helper.elementResults p);
                 featureFlagStoreData := featureFlagStoreData message |} |}]
  end.

(** *** What section 4.5 asks of the registry

    One entry per visualization type, or per test step for the types the
    assessment provider knows, under the configuration's identifier. *)
Definition configuredDrawers : list (string * Drawer.Drawer) :=
  flat_map (fun visualizationType =>
    let config := getConfiguration visualizationType in
    if isValidType visualizationType then
      map (fun entry : string * TestStep =>
             let id := getIdentifier config (Some (key entry.2)) in
             (id, getDrawer config drawerProvider (Some id)))
          (getStepMap visualizationType)
    else [(getIdentifier config None, getDrawer config drawerProvider None)])
    numericValues.

(** *** Histories

    A controller lives through a sequence of deliveries: the document may
    have changed by the time a request arrives, and a request that throws
    leaves the controller in the world it had reached. *)
Definition deliver (w : World)
    (event : list HTMLIFrameElement * VisualizationWindowMessage) : World :=
  (processRequest event.2 (with_iframes event.1 w)).1.

Definition history (events : list (list HTMLIFrameElement * VisualizationWindowMessage))
    (w : World) : World :=
  foldl deliver w events.

(** A configId in the uninitialized state: its drawer is registered and
    has no overlay, and no visibility interval runs for it. *)
Definition uninitialized (configId : string) (w : World) : Prop :=
  (exists d, _drawers w !! configId = Some d ∧ Drawer.overlay d = [])
  ∧ intervals w !! configId = None.

(** *** Lifetimes

    What can be done to a controller once it is constructed: [initialize],
    a request (through [processRequest] or through the subscribed
    handler) in the document of the moment, and [dispose]. *)
Inductive Operation :=
| initializes
| requests (document : list HTMLIFrameElement) (message : VisualizationWindowMessage)
| triggers (document : list HTMLIFrameElement) (message : VisualizationWindowMessage)
    (responder : option string)
| disposes.

Definition perform (w : World) (operation : Operation) : World :=
  match operation with
  | initializes => (initialize w).1
  | requests document message => (processRequest message (with_iframes document w)).1
  | triggers document message responder =>
      (onTriggerVisualization message responder (with_iframes document w)).1
  | disposes => (dispose w).1
  end.

Definition lifetime (document : list HTMLIFrameElement) (operations : list Operation)
  : World :=
  foldl perform (constructed document) operations.

End Controller.

End DrawingController.

(** ** A small configuration

    Two plain visualization types and one assessment with two test steps, in
    a document with two iframes; the instances are the four of the
    visibility-filter property of section 8 and one instance inside an
    iframe. *)
Module Example.
Import DrawingController.

Definition configuration (visualizationType : VisualizationType)
  : VisualizationConfiguration :=
  {| getIdentifier := fun step =>
       match step with
       | Some k => k
       | None => if visualizationType is 0 then "issues" else "landmarks"
       end;
     getDrawer := fun provider step => provider (default "highlight" step) |}.

Definition dependencies : Dependencies :=
  {| splitResultsByFrame := HtmlElementAxeResultsHelper.splitResultsByFrame;
     numericValues := [0; 1; 2];
     getConfiguration := configuration;
     isValidType := fun visualizationType => bool_decide (visualizationType = 2);
     getStepMap := fun _ =>
       [("imageFunction", {| key := "imageFunction" |});
        ("textAlternative", {| key := "textAlternative" |})];
     drawerProvider := fun v =>
       {| Drawer.variant := v; Drawer.config := None; Drawer.overlay := [] |};
     showInstanceVisibility := "showInstanceVisibility" |}.

Definition document : list HTMLIFrameElement := ["#frame1"; "#frame2"].

(** The controller after [initialize()]. *)
Definition world : World := (@initialize dependencies (constructed document)).1.

Definition hidden : Helper.AssessmentVisualizationInstance :=
  {| Helper.selector := "#a"; Helper.framePath := None;
     Helper.isVisible := Some false; Helper.isVisualizationEnabled := None |}.
Definition disabled : Helper.AssessmentVisualizationInstance :=
  {| Helper.selector := "#b"; Helper.framePath := None;
     Helper.isVisible := None; Helper.isVisualizationEnabled := Some false |}.
Definition unset : Helper.AssessmentVisualizationInstance :=
  {| Helper.selector := "#c"; Helper.framePath := None;
     Helper.isVisible := None; Helper.isVisualizationEnabled := None |}.
Definition shown : Helper.AssessmentVisualizationInstance :=
  {| Helper.selector := "#d"; Helper.framePath := None;
     Helper.isVisible := Some true; Helper.isVisualizationEnabled := Some true |}.
Definition nested : Helper.AssessmentVisualizationInstance :=
  {| Helper.selector := "#e"; Helper.framePath := Some "#frame1";
     Helper.isVisible := None; Helper.isVisualizationEnabled := None |}.

Definition flagsOn : FeatureFlagStoreData := {[ "showInstanceVisibility" := true ]}.

Definition enableWithResults : VisualizationWindowMessage :=
  {| visualizationType := 0; isEnabled := true; configId := "issues";
     elementResults := Some [hidden; disabled; nested; unset; shown];
     featureFlagStoreData := Some flagsOn |}.

Definition enableWithResultsNoFlags : VisualizationWindowMessage :=
  {| visualizationType := 0; isEnabled := true; configId := "issues";
     elementResults := Some [nested; unset];
     featureFlagStoreData := None |}.

Definition enableWithoutResults : VisualizationWindowMessage :=
  {| visualizationType := 0; isEnabled := true; configId := "issues";
     elementResults := None; featureFlagStoreData := Some flagsOn |}.

Definition disable : VisualizationWindowMessage :=
  {| visualizationType := 0; isEnabled := false; configId := "issues";
     elementResults := None; featureFlagStoreData := None |}.

Definition enableLandmarks : VisualizationWindowMessage :=
  {| visualizationType := 1; isEnabled := true; configId := "landmarks";
     elementResults := Some [unset; nested];
     featureFlagStoreData := Some flagsOn |}.

(** A history in which "issues" is never enabled. *)
Definition events : list (list HTMLIFrameElement * VisualizationWindowMessage) :=
  [(document, enableLandmarks); (["#frame1"], disable)].

End Example.

(** ** Further cases

    Requests and configurations at the edges: a configId without a drawer,
    results that lie in iframes only, and two visualization types whose
    configurations give the same identifier, and an identifier that is no
    own key of a plain object. *)
Module Cases.
Import DrawingController.

Definition disableUnknown : VisualizationWindowMessage :=
  {| visualizationType := 0; isEnabled := false; configId := "unknown";
     elementResults := None; featureFlagStoreData := None |}.

Definition enableUnknown : VisualizationWindowMessage :=
  {| visualizationType := 0; isEnabled := true; configId := "unknown";
     elementResults := Some [Example.nested; Example.unset; Example.shown];
     featureFlagStoreData := Some Example.flagsOn |}.

Definition enableUnknownWithoutResults : VisualizationWindowMessage :=
  {| visualizationType := 0; isEnabled := true; configId := "unknown";
     elementResults := None; featureFlagStoreData := Some Example.flagsOn |}.

Definition enableNestedOnly : VisualizationWindowMessage :=
  {| visualizationType := 0; isEnabled := true; configId := "unknown";
     elementResults := Some [Example.nested];
     featureFlagStoreData := None |}.

Definition clashing : Dependencies :=
  {| splitResultsByFrame := HtmlElementAxeResultsHelper.splitResultsByFrame;
     numericValues := [0; 1];
     getConfiguration := fun visualizationType =>
       {| getIdentifier := fun _ => "same";
          getDrawer := fun provider _ =>
            provider (if visualizationType is 0 then "first" else "second") |};
     isValidType := fun _ => false;
     getStepMap := fun _ => [];
     drawerProvider := fun v =>
       {| Drawer.variant := v; Drawer.config := None; Drawer.overlay := [] |};
     showInstanceVisibility := "showInstanceVisibility" |}.

(** A configuration with an identifier that is the name of the prototype
    accessor, next to a plain one, and requests for it. *)
Definition inherited : Dependencies :=
  {| splitResultsByFrame := HtmlElementAxeResultsHelper.splitResultsByFrame;
     numericValues := [0; 1];
     getConfiguration := fun visualizationType =>
       {| getIdentifier := fun _ =>
            if visualizationType is 0 then "__proto__" else "landmarks";
          getDrawer := fun provider _ => provider "highlight" |};
     isValidType := fun _ => false;
     getStepMap := fun _ => [];
     drawerProvider := fun v =>
       {| Drawer.variant := v; Drawer.config := None; Drawer.overlay := [] |};
     showInstanceVisibility := "showInstanceVisibility" |}.

Definition enableInherited : VisualizationWindowMessage :=
  {| visualizationType := 0; isEnabled := true; configId := "__proto__";
     elementResults := Some [Example.unset];
     featureFlagStoreData := Some Example.flagsOn |}.

End Cases.

(** ** The details column of a headings instance

    [headingsAssessmentInstanceDetailsColumnRenderer] computes the props of
    the [AssessmentInstanceDetailsColumn] it returns. *)
Module HeadingsColumn.

(** A heading level as a property bag holds it: a string, or a number
    given as an integer (of fewer than 22 digits, which JavaScript prints
    in full). *)
Inductive Level :=
| levelString (s : string)
| levelNumber (n : Z).

(** Truthiness: the empty string and zero are falsy. *)
Definition truthy (level : Level) : bool :=
  match level with
  | levelString s => negb (bool_decide (s = ""))
  | levelNumber n => negb (bool_decide (n = 0%Z))
  end.

(** The text of a level in a template literal and as a property key. *)
Definition toString (level : Level) : string :=
  match level with
  | levelString s => s
  | levelNumber n => pretty n
  end.

(** [HeadingsAssessmentProperties]; a member may be missing. *)
Record HeadingsAssessmentProperties := {
  headingText : option string;
  headingLevel : option Level;
}.

Record Instance := { propertyBag : option HeadingsAssessmentProperties }.

Record AssessmentInstanceRowData := { instance : Instance }.

(** An entry of [HeadingFormatter.headingStyles]; [borderColor] is the only
    member read. *)
Record HeadingStyleConfiguration := { borderColor : string }.

(** The props of [AssessmentInstanceDetailsColumn]; [None] is [null]. *)
Record AssessmentInstanceDetailsColumnProps := {
  background : string;
  labelText : string;
  textContent : option string;
  tooltipId : option string;
  customClassName : option string;
}.

(** The renderer, over the table [HeadingFormatter.headingStyles], given
    by its own entries; what a read of the table finds on its prototype is
    not in the model. *)
Definition headingsAssessmentInstanceDetailsColumnRenderer
    (headingStyles : gmap string HeadingStyleConfiguration)
    (item : AssessmentInstanceRowData) : AssessmentInstanceDetailsColumnProps :=
  let propertyBag := propertyBag (instance item) in
  let textContent := if propertyBag is Some bag then headingText bag else None in
  let headingLevel := if propertyBag is Some bag then headingLevel bag else None in
  let labelText :=
    match headingLevel with
    | Some level => if truthy level then "H" +:+ toString level else "N/A"
    | None => "N/A"
    end in
  let headingStyle :=
    match headingLevel with
    | Some level => if truthy level then headingStyles !! toString level else None
    | None => None
    end in
  let background := if headingStyle is Some style then borderColor style else "#767676" in
  let customClass := if headingLevel is Some _ then None else Some "not-applicable" in
  {| background := background;
     labelText := labelText;
     textContent := textContent;
     tooltipId := None;
     customClassName := customClass |}.

(** The heading level the renderer reads. *)
Definition levelOf (item : AssessmentInstanceRowData) : option Level :=
  if propertyBag (instance item) is Some bag then headingLevel bag else None.

End HeadingsColumn.

(** ** Strings

    The two string operations the issues table applies to the report:
    [String.prototype.replace] with a string pattern, and lodash's
    [escape]. *)
Module JsString.

Fixpoint dropChars (n : nat) (s : string) : string :=
  match n, s with
  | 0, _ => s
  | S n', String _ rest => dropChars n' rest
  | S _, EmptyString => EmptyString
  end.

(** The first occurrence of [pattern] in [s]: what is before it and what is
    after it. *)
Fixpoint splitAtFirst (pattern s : string) : option (string * string) :=
  if String.prefix pattern s then Some (EmptyString, dropChars (String.length pattern) s)
  else
    match s with
    | EmptyString => None
    | String c rest =>
        match splitAtFirst pattern rest with
        | Some (before, after) => Some (String c before, after)
        | None => None
        end
    end.

(** The replacement text: with a string pattern there are no captures, so
    only [$$], [$&], [$`] and [$'] are special. *)
Fixpoint getSubstitution (matched before after replacement : string) : string :=
  match replacement with
  | EmptyString => EmptyString
  | String c rest =>
      if Ascii.eqb c "$"%char then
        match rest with
        | String d rest' =>
            if Ascii.eqb d "$"%char then String "$"%char (getSubstitution matched before after rest')
            else if Ascii.eqb d "&"%char then matched +:+ getSubstitution matched before after rest'
            else if Ascii.eqb d "`"%char then before +:+ getSubstitution matched before after rest'
            else if Ascii.eqb d "'"%char then after +:+ getSubstitution matched before after rest'
            else String c (getSubstitution matched before after rest)
        | EmptyString => String c EmptyString
        end
      else String c (getSubstitution matched before after rest)
  end.

(** [s.replace(pattern, replacement)]: the first occurrence only. *)
Definition replace (s pattern replacement : string) : string :=
  match splitAtFirst pattern s with
  | Some (before, after) =>
      before +:+ getSubstitution pattern before after replacement +:+ after
  | None => s
  end.

(** The entity lodash's [escape] writes for a character, if any. *)
Definition entity (c : ascii) : option string :=
  if Ascii.eqb c "&"%char then Some "&amp;"
  else if Ascii.eqb c "<"%char then Some "&lt;"
  else if Ascii.eqb c ">"%char then Some "&gt;"
  else if Ascii.eqb c "034"%char then Some "&quot;"
  else if Ascii.eqb c "'"%char then Some "&#39;"
  else None.

Fixpoint escape (s : string) : string :=
  match s with
  | EmptyString => EmptyString
  | String c rest => default (String c EmptyString) (entity c) +:+ escape rest
  end.

(** The characters of a string. *)
Fixpoint chars (s : string) : list ascii :=
  match s with
  | EmptyString => []
  | String c rest => c :: chars rest
  end.

End JsString.

(** ** The issues table

    The [IssuesTable] component: what it renders from its props and state,
    and how its export handlers change the state. *)
Module IssuesTable.

(** A value the component only hands on. *)
Inductive Opaque := opaque (name : string).

Inductive Attribute :=
| attrString (s : string)
| attrBool (b : bool)
| attrNullableBool (b : option bool)
| attrFunction (name : string)
| attrOpaque (o : Opaque)
| attrViolations (violations : list Opaque)
| attrFlags (flags : FeatureFlagStoreData).

#[warnings="-register-all"] Inductive Jsx :=
| jsxNull
| jsxText (s : string)
| jsxElement (tag : string) (attributes : list (string * Attribute)) (children : list Jsx).

(** The displayable data of a visualization configuration, as read here. *)
Record DisplayableData := {
  toggleLabel : string;
  displayTitle : string;
}.

Record ScanResults := { timestamp : string }.

(** [new Date(timestamp)] *)
Inductive Date := newDate (timestamp : string).

Record ReportGenerator := {
  generateName : string -> Date -> string -> string;
  generateHtml : ScanResults -> Date -> string -> string -> string -> string;
}.

Record IssuesTableProps := {
  deps : Opaque;
  title : string;
  subtitle : option Jsx;
  issuesTableHandler : Opaque;
  violations : option (list Opaque);
  selectedIdToRuleResultMap : Opaque;
  issuesEnabled : option bool;
  issuesSelection : Opaque;
  pageTitle : string;
  pageUrl : string;
  scanning : bool;
  toggleClickHandler : string;
  visualizationConfigurationFactory : VisualizationType -> DisplayableData;
  featureFlags : FeatureFlagStoreData;
  scanResult : ScanResults;
  reportGenerator : ReportGenerator;
  userConfigurationStoreData : Opaque;
}.

Record IssuesTableState := {
  isExportDialogOpen : bool;
  exportDescription : string;
  exportName : string;
  exportDataWithPlaceholder : string;
  exportData : string;
}.

(** A mounted component: its props, its state, and the configuration its
    constructor looked up. *)
Record Component := {
  props : IssuesTableProps;
  state : IssuesTableState;
  configuration : DisplayableData;
}.

Definition descriptionPlaceholder : string := "d68d50a0-8249-464d-b2fd-709049c89ee4".

(** The constructor; [Issues] is [VisualizationType.Issues]. *)
Definition construct (Issues : VisualizationType) (p : IssuesTableProps) : Component :=
  {| props := p;
     configuration := visualizationConfigurationFactory p Issues;
     state := {| isExportDialogOpen := false;
                 exportDescription := "";
                 exportName := "";
                 exportDataWithPlaceholder := "";
                 exportData := "" |} |}.

Definition renderSubtitle (this : Component) : Jsx :=
  match subtitle (props this) with
  | None => jsxNull
  | Some content =>
      jsxElement "div" [("className", attrString "issues-table-subtitle")] [content]
  end.

Definition renderSpinner (label : string) : Jsx :=
  jsxElement "Spinner"
    [("className", attrString "details-view-spinner");
     ("size", attrString "SpinnerSize.large");
     ("label", attrString label)] [].

Definition renderToggle (this : Component) : Jsx :=
  jsxElement "VisualizationToggle"
    [("label", attrString (toggleLabel (configuration this)));
     ("checked", attrNullableBool (issuesEnabled (props this)));
     ("disabled", attrBool (scanning (props this)));
     ("onClick", attrFunction (toggleClickHandler (props this)));
     ("className", attrString "automated-checks-details-view-toggle");
     ("visualizationName", attrString (displayTitle (configuration this)))] [].

Definition renderExportButton (this : Component) : Jsx :=
  let shouldShowButton :=
    (if issuesEnabled (props this) is Some true then true else false)
    && negb (scanning (props this)) in
  if shouldShowButton then
    jsxElement "ActionButton"
      [("iconProps", attrString "Export");
       ("onClick", attrFunction "onExportButtonClick")]
      [jsxText "Export result"]
  else jsxNull.

Definition renderCommandBar (this : Component) : Jsx :=
  jsxElement "div" [("className", attrString "details-view-command-bar")]
    [renderToggle this; renderExportButton this].

Definition renderExportDialog (this : Component) : Jsx :=
  jsxElement "ExportDialog"
    [("deps", attrOpaque (deps (props this)));
     ("isOpen", attrBool (isExportDialogOpen (state this)));
     ("fileName", attrString (exportName (state this)));
     ("description", attrString (exportDescription (state this)));
     ("html", attrString (exportData (state this)));
     ("onClose", attrFunction "onDismissExportDialog");
     ("onDescriptionChange", attrFunction "onExportDescriptionChange");
     ("exportResultsType", attrString "AutomatedChecks")] [].

Definition renderDisabledMessage (this : Component) : Jsx :=
  jsxElement "div"
    [("className", attrString "details-disabled-message"); ("role", attrString "alert")]
    [jsxText "Turn on ";
     jsxElement "Markup.Term" [] [jsxText (displayTitle (configuration this))];
     jsxText " to see a list of failures."].

Definition getIssueDetailPane (this : Component) : Jsx :=
  jsxElement "IssuesDetailsPane"
    [("deps", attrOpaque (deps (props this)));
     ("selectedIdToRuleResultMap", attrOpaque (selectedIdToRuleResultMap (props this)));
     ("pageTitle", attrString (pageTitle (props this)));
     ("pageUrl", attrString (pageUrl (props this)));
     ("featureFlagData", attrFlags (featureFlags (props this)));
     ("userConfigurationStoreData", attrOpaque (userConfigurationStoreData (props this)))]
    [].

(** [renderDetails] is reached with violations present only. *)
Definition renderDetails (this : Component) (present : list Opaque) : Jsx :=
  jsxElement "div" [("className", attrString "issues-table-details")]
    [jsxElement "IssuesDetailsList"
       [("violations", attrViolations present);
        ("issuesTableHandler", attrOpaque (issuesTableHandler (props this)));
        ("issuesSelection", attrOpaque (issuesSelection (props this)))] [];
     jsxElement "div" [("className", attrString "issue-detail-outer-container ms-Fabric")]
       [getIssueDetailPane this]].

Definition renderComponent (this : Component) : Jsx :=
  if negb (if issuesEnabled (props this) is Some true then true else false) then
    renderDisabledMessage this
  else if scanning (props this) then renderSpinner "Scanning..."
  else
    match violations (props this) with
    | None => renderSpinner "Loading data..."
    | Some present => renderDetails this present
    end.

Definition renderContent (this : Component) : Jsx :=
  match issuesEnabled (props this) with
  | None => renderSpinner "Loading..."
  | Some _ =>
      jsxElement "div" [("className", attrString "issues-table-content")]
        [renderCommandBar this; renderExportDialog this; renderComponent this]
  end.

Definition render (this : Component) : Jsx :=
  jsxElement "div" [("className", attrString "issues-table")]
    [jsxElement "h1" [] [jsxText (title (props this))];
     renderSubtitle this;
     renderContent this].

(** [setState] with every member given. *)
Definition withState (st : IssuesTableState) (this : Component) : Component :=
  {| props := props this; state := st; configuration := configuration this |}.

Definition onExportButtonClick (this : Component) : Component :=
  let scanDate := newDate (timestamp (scanResult (props this))) in
  let exportName :=
    generateName (reportGenerator (props this)) "AutomatedChecksReport" scanDate
      (pageTitle (props this)) in
  let exportDataWithPlaceholder :=
    generateHtml (reportGenerator (props this)) (scanResult (props this)) scanDate
      (pageTitle (props this)) (pageUrl (props this)) descriptionPlaceholder in
  let exportData := JsString.replace exportDataWithPlaceholder descriptionPlaceholder "" in
  withState
    {| isExportDialogOpen := true;
       exportDescription := "";
       exportName := exportName;
       exportDataWithPlaceholder := exportDataWithPlaceholder;
       exportData := exportData |} this.

Definition onDismissExportDialog (this : Component) : Component :=
  withState
    {| isExportDialogOpen := false;
       exportDescription := exportDescription (state this);
       exportName := exportName (state this);
       exportDataWithPlaceholder := exportDataWithPlaceholder (state this);
       exportData := exportData (state this) |} this.

Definition onExportDescriptionChange (value : string) (this : Component) : Component :=
  let exportData :=
    JsString.replace (exportDataWithPlaceholder (state this)) descriptionPlaceholder
      (JsString.escape value) in
  withState
    {| isExportDialogOpen := isExportDialogOpen (state this);
       exportDescription := value;
       exportName := exportName (state this);
       exportDataWithPlaceholder := exportDataWithPlaceholder (state this);
       exportData := exportData |} this.

(** A sequence of description changes, oldest first. *)
Definition describe (values : list string) (this : Component) : Component :=
  foldl (fun c value => onExportDescriptionChange value c) this values.

(** The report a click on the export button asks the generator for. *)
Definition generatedReport (this : Component) : string :=
  generateHtml (reportGenerator (props this)) (scanResult (props this))
    (newDate (timestamp (scanResult (props this))))
    (pageTitle (props this)) (pageUrl (props this)) descriptionPlaceholder.

(** How many elements of a tag a tree has. *)
Fixpoint countTag (tag : string) (tree : Jsx) : nat :=
  match tree with
  | jsxNull | jsxText _ => 0
  | jsxElement name _ children =>
      (if bool_decide (name = tag) then 1 else 0)
      + foldr (fun child total => countTag tag child + total) 0 children
  end.

End IssuesTable.

(** ** An issues table

    A table over a report generator that writes the placeholder between two
    tags, and a description with markup in it. *)
Module IssuesTableCases.
Import IssuesTable.

Definition generator : ReportGenerator :=
  {| generateName := fun prefix date pageTitle => prefix +:+ "_" +:+ pageTitle;
     generateHtml := fun scan date pageTitle pageUrl description =>
       "<h1>" +:+ pageTitle +:+ "</h1><p>" +:+ description +:+ "</p>" |}.

Definition silentGenerator : ReportGenerator :=
  {| generateName := fun prefix date pageTitle => prefix;
     generateHtml := fun scan date pageTitle pageUrl description => "<p></p>" |}.

Definition tableProps (g : ReportGenerator) : IssuesTableProps :=
  {| deps := opaque "deps";
     title := "Automated checks";
     subtitle := None;
     issuesTableHandler := opaque "issuesTableHandler";
     violations := None;
     selectedIdToRuleResultMap := opaque "selectedIdToRuleResultMap";
     issuesEnabled := Some true;
     issuesSelection := opaque "issuesSelection";
     pageTitle := "Home";
     pageUrl := "https://example.org/";
     scanning := false;
     toggleClickHandler := "toggleClickHandler";
     visualizationConfigurationFactory := fun _ =>
       {| toggleLabel := "Show failures"; displayTitle := "Automated checks" |};
     featureFlags := ∅;
     scanResult := {| timestamp := "2019-03-12T16:38:12Z" |};
     reportGenerator := g;
     userConfigurationStoreData := opaque "userConfigurationStoreData" |}.

Definition table : Component := construct 0 (tableProps generator).

Definition silentTable : Component := construct 0 (tableProps silentGenerator).

Definition markup : string := "<b>R&D</b>".

End IssuesTableCases.

(** ** The end-to-end page

    [Page] wraps a Puppeteer page.  Every method awaits each step before the
    next, so a method is a sequence of requests to the browser; what the
    browser answers is not the wrapper's to decide and is a parameter. *)
Module Page.

(** A request to the browser; [takeScreenshot] is the one the wrapper makes
    on its own account. *)
Inductive Request :=
| pageGoto (url : string)
| pageClose
| pageBringToFront
| pageEvaluate (fn : string) (args : list string)
| pageWaitForSelector (selector : string)
| pageWaitFor (predicate : string) (selector : string)
| pageWaitForXPath (xPath : string)
| elementClick (element : string)
| keyboardPress (key : string)
| takeScreenshot.

#[global] Instance Request_eq_dec : EqDecision Request.
Proof. solve_decision. Defined.

(** The browser: what it answers to a request after the requests made so
    far, an error or a value, and whether the page is closed by then. *)
Class Browser := {
  answer : list Request -> Request -> string + string;
  isClosed : list Request -> bool;
}.

(** An awaited step: the requests made so far go in, and come out extended,
    with an error thrown or a value. *)
Definition Async (A : Type) : Type := list Request -> list Request * (string + A).

Definition resolve {A} (a : A) : Async A := fun made => (made, inr a).

Definition await {A B} (step : Async A) (next : A -> Async B) : Async B :=
  fun made =>
    match step made with
    | (made', inr a) => next a made'
    | (made', inl error) => (made', inl error)
    end.

Section Methods.
Context `{Browser}.

Definition request (r : Request) : Async string :=
  fun made => (made ++ [r], answer made r).

Definition screenshotOnError {A} (fn : Async A) : Async A :=
  fun made =>
    match fn made with
    | (made', inr a) => (made', inr a)
    | (made', inl error) =>
        match request takeScreenshot made' with
        | (made'', inr _) => (made'', inl error)
        | (made'', inl failure) => (made'', inl failure)
        end
    end.

Definition goto (url : string) : Async string :=
  screenshotOnError (request (pageGoto url)).

Definition close (ignoreIfAlreadyClosed : bool) : Async string :=
  fun made =>
    if ignoreIfAlreadyClosed && isClosed made then resolve "" made
    else screenshotOnError (request pageClose) made.

Definition bringToFront : Async string :=
  screenshotOnError (request pageBringToFront).

Definition evaluate (fn : string) (args : list string) : Async string :=
  screenshotOnError (request (pageEvaluate fn args)).

Definition getMatchingElements (selector elementProperty : string) : Async string :=
  screenshotOnError (evaluate "querySelectorAll" [selector; elementProperty]).

Definition waitForSelector (selector : string) : Async string :=
  screenshotOnError (request (pageWaitForSelector selector)).

Definition waitForSelectorToDisappear (selector : string) : Async string :=
  screenshotOnError (request (pageWaitFor "!querySelector" selector)).

Definition clickSelector (selector : string) : Async string :=
  await (waitForSelector selector) (fun element =>
    screenshotOnError (request (elementClick element))).

Definition clickSelectorXPath (xPathString : string) : Async string :=
  screenshotOnError
    (await (request (pageWaitForXPath xPathString)) (fun element =>
       request (elementClick element))).

Definition keyPress (key : string) : Async string :=
  request (keyboardPress key).

(** A call of one of the methods above. *)
Inductive Method :=
| callGoto (url : string)
| callClose (ignoreIfAlreadyClosed : bool)
| callBringToFront
| callEvaluate (fn : string) (args : list string)
| callGetMatchingElements (selector elementProperty : string)
| callWaitForSelector (selector : string)
| callWaitForSelectorToDisappear (selector : string)
| callClickSelector (selector : string)
| callClickSelectorXPath (xPathString : string)
| callKeyPress (key : string).

Definition run (m : Method) : Async string :=
  match m with
  | callGoto url => goto url
  | callClose ignore => close ignore
  | callBringToFront => bringToFront
  | callEvaluate fn args => evaluate fn args
  | callGetMatchingElements selector property => getMatchingElements selector property
  | callWaitForSelector selector => waitForSelector selector
  | callWaitForSelectorToDisappear selector => waitForSelectorToDisappear selector
  | callClickSelector selector => clickSelector selector
  | callClickSelectorXPath xPath => clickSelectorXPath xPath
  | callKeyPress key => keyPress key
  end.

End Methods.

(** The screenshots among some requests. *)
Definition screenshots (made : list Request) : nat :=
  length (filter (fun r => r = takeScreenshot) made).

(** A browser in which no page evaluates and no selector turns up, while
    screenshots work. *)
Definition failing : Browser :=
  {| answer := fun made r =>
       match r with
       | pageEvaluate _ _ => inl "Evaluation failed"
       | pageWaitForSelector _ => inl "waiting for selector failed: timeout"
       | _ => inr "done"
       end;
     isClosed := fun _ => false |}.

End Page.

(** * Properties *)

Import DrawingController.
Import FrameCommunicator.

(** ** The monad *)

Lemma bind_run {A B} (m : Js A) (k : A -> Js B) (w : World) :
  (m ≫= k) w =
  match m w with
  | (w', Normal a) => k a w'
  | (w', Throw e) => (w', Throw e)
  end.
Proof. reflexivity. Qed.

Lemma call_run (c : Call) (w : World) : call c w = (record c (effect c w), Normal tt).
Proof. reflexivity. Qed.

Lemma replay_app (cs1 cs2 : list Call) (w : World) :
  replay (cs1 ++ cs2) w = replay cs2 (replay cs1 w).
Proof. apply foldl_app. Qed.

Lemma replay_cons (c : Call) (cs : list Call) (w : World) :
  replay (c :: cs) w = replay cs (record c (effect c w)).
Proof. reflexivity. Qed.

Lemma replay_calls (cs : list Call) (w : World) : calls (replay cs w) = calls w ++ cs.
Proof.
  revert w. induction cs as [|c cs IH]; intros w.
  - simpl. by rewrite app_nil_r.
  - rewrite replay_cons, IH. destruct c; simpl; by rewrite <- app_assoc.
Qed.

Lemma replay_featureFlagStoreData (cs : list Call) (w : World) :
  _featureFlagStoreData (replay cs w) = _featureFlagStoreData w.
Proof.
  revert w. induction cs as [|c cs IH]; intros w; [done|].
  rewrite replay_cons, IH. by destruct c.
Qed.

Lemma replay_iframes (cs : list Call) (w : World) : iframes (replay cs w) = iframes w.
Proof.
  revert w. induction cs as [|c cs IH]; intros w; [done|].
  rewrite replay_cons, IH. by destruct c.
Qed.

Lemma effect_is_Some (c : Call) (w : World) (k : string) :
  is_Some (_drawers (effect c w) !! k) <-> is_Some (_drawers w !! k).
Proof. destruct c; simpl; try done; apply lookup_alter_is_Some. Qed.

Lemma replay_is_Some (cs : list Call) (w : World) (k : string) :
  is_Some (_drawers (replay cs w) !! k) <-> is_Some (_drawers w !! k).
Proof.
  revert w. induction cs as [|c cs IH]; intros w; [done|].
  rewrite replay_cons, IH. apply (effect_is_Some c w k).
Qed.

Lemma replay_registered (cs : list Call) (w : World) (k : string) :
  registered k (replay cs w) = registered k w.
Proof. unfold registered. apply bool_decide_ext, replay_is_Some. Qed.

Lemma replay_dom (cs : list Call) (w : World) :
  dom (_drawers (replay cs w)) = dom (_drawers w).
Proof.
  apply set_eq. intros k. rewrite !elem_of_dom. apply replay_is_Some.
Qed.

Lemma forEach_calls {A} (g : A -> Call) (xs : list A) (w : World) :
  forEach xs (fun x => call (g x)) w = (replay (map g xs) w, Normal tt).
Proof.
  revert w. induction xs as [|x xs IH]; intros w; [done|].
  simpl. rewrite bind_run, call_run. apply IH.
Qed.

(** An index loop that reads [xs[pos]] at every position visits the elements
    of [xs] in order, and never reads past the end. *)
Lemma forLoop_from {A} (f : option A -> Js unit) (pre xs : list A) (w : World) :
  forLoop (length pre) (length xs) (fun pos => f ((pre ++ xs) !! pos)) w
  = forEach xs (fun x => f (Some x)) w.
Proof.
  revert pre w. induction xs as [|x xs IH]; intros pre w; [done|].
  simpl. rewrite !bind_run, list_lookup_middle by done.
  destruct (f (Some x) w) as [w' [[]|e]]; [|done].
  specialize (IH (pre ++ [x]) w').
  rewrite length_app, Nat.add_1_r in IH. rewrite <- IH.
  by rewrite <- app_assoc.
Qed.

Lemma forLoop_lookup {A} (f : option A -> Js unit) (xs : list A) (w : World) :
  forLoop 0 (length xs) (fun pos => f (xs !! pos)) w
  = forEach xs (fun x => f (Some x)) w.
Proof. apply (forLoop_from f [] xs w). Qed.

(** ** The calls of a request *)

Section Trace.
Context `{Dependencies}.

Lemma getDrawer_run (configId : string) (w : World) :
  getDrawer_ configId w
  = (w, Normal (if registered configId w then Some configId else None)).
Proof.
  unfold getDrawer_, gets, registered. do 2 f_equal.
  destruct (_drawers w !! configId) eqn:E.
  - by rewrite bool_decide_eq_true_2.
  - rewrite bool_decide_eq_false_2; [done|]. by intros [? ?].
Qed.

Lemma enableVisualizationInCurrentFrame_known results configId w :
  registered configId w = true ->
  enableVisualizationInCurrentFrame results configId w
  = (replay (drawCalls configId (_featureFlagStoreData w) results) w, Normal tt).
Proof.
  intros Hk. unfold enableVisualizationInCurrentFrame.
  rewrite bind_run, getDrawer_run, Hk. reflexivity.
Qed.

Lemma enableVisualizationInCurrentFrame_unknown results configId w :
  registered configId w = false ->
  enableVisualizationInCurrentFrame results configId w
  = (w, Throw (TypeError "drawer.initialize")).
Proof.
  intros Hk. unfold enableVisualizationInCurrentFrame.
  rewrite bind_run, getDrawer_run, Hk. reflexivity.
Qed.

Lemma enableVisualizationInIFrames_run vt frame results configId w :
  enableVisualizationInIFrames vt frame results configId w
  = (replay [sendMessage (createFrameRequestMessage frame
               (enableMessage vt configId (_featureFlagStoreData w) results))] w,
     Normal tt).
Proof. reflexivity. Qed.

Lemma enable_loop_trace vt configId (byFrames : list Helper.HTMLIFrameResult) w :
  let t := enableTrace (registered configId w) (_featureFlagStoreData w)
             vt configId byFrames in
  enableVisualization vt (Some byFrames) configId w = (replay t.1 w, t.2).
Proof.
  simpl. unfold enableVisualization.
  rewrite (forLoop_lookup (fun o =>
    resultsForFrame ← deref "resultsForFrame.frame" o; _)).
  revert w. induction byFrames as [|p rest IH]; intros w; [done|].
  cbn [forEach enableTrace]. rewrite bind_run.
  change (deref "resultsForFrame.frame" (Some p) ≫= ?k) with (k p).
  cbv beta. destruct (Helper.frame p) as [iframe|].
  - rewrite enableVisualizationInIFrames_run.
    rewrite IH, replay_registered, replay_featureFlagStoreData.
    by rewrite <- replay_app.
  - rewrite bind_run. unfold gets at 1. cbv beta iota.
    destruct (_featureFlagStoreData w) as [flags|] eqn:Hff; [|done].
    rewrite bind_run. cbn [deref]. unfold mret at 1, Js_ret at 1. cbv beta iota.
    rewrite bind_run.
    assert (Htrack : (if flags !! showInstanceVisibility is Some true
              then call (createVisibilityCheckerInterval configId vt
                           (Helper.elementResults p))
              else mret tt) w
            = (replay (trackingCalls vt configId flags (Helper.elementResults p)) w,
               Normal tt)).
    { unfold trackingCalls.
      destruct (flags !! showInstanceVisibility) as [[]|]; reflexivity. }
    rewrite Htrack. clear Htrack.
    set (tracking := trackingCalls vt configId flags (Helper.elementResults p)).
    destruct (registered configId w) eqn:Hk.
    + rewrite enableVisualizationInCurrentFrame_known
        by by rewrite replay_registered.
      rewrite replay_featureFlagStoreData, Hff.
      rewrite IH. rewrite !replay_registered, !replay_featureFlagStoreData, Hk, Hff.
      cbn [fst snd]. by rewrite !replay_app.
    + rewrite enableVisualizationInCurrentFrame_unknown
        by by rewrite replay_registered.
      reflexivity.
Qed.

Lemma processRequest_trace (message : VisualizationWindowMessage) (w : World) :
  processRequest message w
  = (replay (requestTrace message w).1
       (with_featureFlagStoreData (featureFlagStoreData message) w),
     (requestTrace message w).2).
Proof.
  unfold processRequest, requestTrace. rewrite bind_run.
  unfold modify at 1. cbv beta iota.
  set (w1 := with_featureFlagStoreData (featureFlagStoreData message) w).
  assert (Hreg : registered (configId message) w1 = registered (configId message) w)
    by reflexivity.
  destruct (isEnabled message).
  - rewrite bind_run. unfold gets at 1. cbv beta iota.
    change (iframes w1) with (iframes w).
    destruct (elementResults message) as [results|].
    + rewrite enable_loop_trace. by rewrite Hreg.
    + unfold enableVisualization. rewrite bind_run.
      destruct (registered (configId message) w) eqn:Hk.
      * rewrite enableVisualizationInCurrentFrame_known by by rewrite Hreg.
        rewrite bind_run. unfold getAllFrames, gets at 1. cbv beta iota.
        rewrite replay_iframes. change (iframes w1) with (iframes w).
        rewrite (forLoop_lookup (fun o =>
          enableVisualizationInIFrames (visualizationType message) o None
            (configId message))).
        change (_featureFlagStoreData w1) with (featureFlagStoreData message).
        cbn [fst snd]. rewrite replay_app.
        set (w2 := replay _ w1).
        assert (Hff : _featureFlagStoreData w2 = featureFlagStoreData message)
          by (unfold w2; by rewrite replay_featureFlagStoreData).
        clearbody w2. revert w2 Hff.
        induction (iframes w) as [|x xs IH]; intros w2 Hff; [done|].
        cbn [forEach map]. rewrite bind_run, enableVisualizationInIFrames_run, Hff.
        rewrite IH by by rewrite replay_featureFlagStoreData. reflexivity.
      * by rewrite enableVisualizationInCurrentFrame_unknown by by rewrite Hreg.
  - unfold disableVisualization, disableVisualizationInCurrentFrame.
    rewrite !bind_run, getDrawer_run, Hreg.
    destruct (registered (configId message) w) eqn:Hk; [|done].
    cbn [deref]. unfold mret at 1, Js_ret at 1. cbv beta iota.
    rewrite bind_run, call_run.
    unfold disableVisualizationInIFrames. rewrite !bind_run.
    unfold getAllFrames, gets at 1. cbv beta iota.
    change (iframes (record _ (effect _ w1))) with (iframes w).
    rewrite (forLoop_lookup (fun o =>
      match o with
      | Some iframe =>
          call (sendMessage (createFrameRequestMessage (Some iframe)
                  (disableMessage (visualizationType message) (configId message))))
      | None => mret tt
      end)).
    rewrite (forEach_calls (fun iframe =>
      sendMessage (createFrameRequestMessage (Some iframe)
        (disableMessage (visualizationType message) (configId message))))).
    rewrite call_run. cbn [fst snd]. rewrite replay_cons, replay_app. reflexivity.
Qed.

End Trace.

(** ** Requests *)

Section Requests.
Context `{Dependencies}.

Lemma registered_true (configId : string) (w : World) :
  is_Some (_drawers w !! configId) -> registered configId w = true.
Proof. intros Hk. by apply bool_decide_eq_true_2. Qed.

Lemma sentRequests_sends {A} (g : A -> MessageRequest VisualizationWindowMessage)
    (xs : list A) :
  sentRequests (map (fun x => sendMessage (g x)) xs) = map g xs.
Proof. induction xs as [|x xs IH]; [done|]. unfold sentRequests. simpl. f_equal. apply IH. Qed.

(** C2, as amended.  An enable request without elementResults whose
    configId has a drawer in the registry completes normally; it initializes the drawer of the current
    frame with no data and draws it, and then sends one enable message
    without elementResults to each iframe of the document, in document
    order: as many messages as the document has iframes, whatever was
    drawn or sent before. *)
Theorem enable_without_results_reaches_every_iframe
    (m : VisualizationWindowMessage) (w : World) :
  isEnabled m = true ->
  elementResults m = None ->
  is_Some (_drawers w !! configId m) ->
  let forwarded iframe :=
    {| command := "insights.draw";
       frame := Some iframe;
       message := {| visualizationType := visualizationType m;
                     isEnabled := true;
                     configId := configId m;
                     elementResults := None;
                     featureFlagStoreData := featureFlagStoreData m |} |} in
  let made :=
    [drawerInitialize (configId m)
       {| Drawer.data := None;
          Drawer.featureFlagStoreData := featureFlagStoreData m |};
     drawerDrawLayout (configId m)]
    ++ map (fun iframe => sendMessage (forwarded iframe)) (iframes w) in
  (processRequest m w).2 = Normal tt
  ∧ calls (processRequest m w).1 = calls w ++ made
  ∧ sentRequests made = map forwarded (iframes w)
  ∧ length (sentRequests made) = length (iframes w).
Proof.
  intros Hen Hres Hk forwarded made.
  rewrite processRequest_trace. unfold requestTrace.
  rewrite Hen, Hres, (registered_true _ _ Hk). cbn [fst snd].
  rewrite replay_calls.
  assert (Hsent : sentRequests made = map forwarded (iframes w)).
  { unfold made. change (sentRequests (?a :: ?b :: ?l)) with (sentRequests l).
    apply sentRequests_sends. }
  split_and!; [done|done|done|]. by rewrite Hsent, length_map.
Qed.

(** *** What a record of calls leaves untouched *)

Ltac each_call :=
  repeat match goal with |- Forall _ _ => constructor end.

Lemma replay_drawers_other (k : string) (cs : list Call) (w : World) :
  Forall (fun c => onDrawer c ≠ Some k) cs ->
  _drawers (replay cs w) !! k = _drawers w !! k.
Proof.
  intros Hcs. revert w. induction Hcs as [|c cs Hc _ IH]; intros w; [done|].
  rewrite replay_cons, IH.
  destruct c; simpl in *; try done; apply lookup_alter_ne; congruence.
Qed.

Lemma replay_drawers_none (cs : list Call) (w : World) :
  Forall (fun c => onDrawer c = None) cs -> _drawers (replay cs w) = _drawers w.
Proof.
  intros Hcs. revert w. induction Hcs as [|c cs Hc _ IH]; intros w; [done|].
  rewrite replay_cons, IH. by destruct c.
Qed.

Lemma replay_intervals_other (k : string) (cs : list Call) (w : World) :
  Forall (fun c => onInterval c ≠ Some k) cs ->
  intervals (replay cs w) !! k = intervals w !! k.
Proof.
  intros Hcs. revert w. induction Hcs as [|c cs Hc _ IH]; intros w; [done|].
  rewrite replay_cons, IH.
  destruct c; simpl in *; try done.
  - apply lookup_insert_ne. congruence.
  - apply lookup_delete_ne. congruence.
Qed.

Lemma replay_intervals_none (cs : list Call) (w : World) :
  Forall (fun c => onInterval c = None) cs -> intervals (replay cs w) = intervals w.
Proof.
  intros Hcs. revert w. induction Hcs as [|c cs Hc _ IH]; intros w; [done|].
  rewrite replay_cons, IH. by destruct c.
Qed.

Lemma replay_subscriptions (cs : list Call) (w : World) :
  Forall (fun c => subscribes c = false) cs ->
  subscriptions (replay cs w) = subscriptions w.
Proof.
  intros Hcs. revert w. induction Hcs as [|c cs Hc _ IH]; intros w; [done|].
  rewrite replay_cons, IH. by destruct c.
Qed.

Lemma Forall_sends {A} (P : Call -> Prop)
    (g : A -> MessageRequest VisualizationWindowMessage) (xs : list A) :
  (forall r, P (sendMessage r)) -> Forall P (map (fun x => sendMessage (g x)) xs).
Proof. intros HP. apply Forall_fmap, Forall_true. intros x. apply HP. Qed.

(** Every call of a request is on the drawer or the interval of the
    request's configId, and none changes the subscriptions. *)
Lemma enableTrace_scope known ff vt configId byFrames :
  Forall (fun c => (onDrawer c = None ∨ onDrawer c = Some configId)
                   ∧ (onInterval c = None ∨ onInterval c = Some configId)
                   ∧ subscribes c = false)
    (enableTrace known ff vt configId byFrames).1.
Proof.
  induction byFrames as [|p rest IH]; [by constructor|].
  cbn [enableTrace]. destruct (Helper.frame p).
  - constructor; [|done]. simpl. auto.
  - destruct ff as [flags|]; [|by constructor].
    assert (Htrack : Forall (fun c =>
              (onDrawer c = None ∨ onDrawer c = Some configId)
              ∧ (onInterval c = None ∨ onInterval c = Some configId)
              ∧ subscribes c = false)
              (trackingCalls vt configId flags (Helper.elementResults p))).
    { unfold trackingCalls.
      destruct (flags !! showInstanceVisibility) as [[]|]; each_call; simpl; auto. }
    destruct known; [|done]. cbn [fst].
    apply Forall_app; split; [done|].
    apply Forall_app; split; [|done].
    each_call; simpl; auto.
Qed.

Lemma requestTrace_scope (m : VisualizationWindowMessage) (w : World) :
  Forall (fun c => (onDrawer c = None ∨ onDrawer c = Some (configId m))
                   ∧ (onInterval c = None ∨ onInterval c = Some (configId m))
                   ∧ subscribes c = false)
    (requestTrace m w).1.
Proof.
  unfold requestTrace. destruct (isEnabled m).
  - destruct (elementResults m).
    + apply enableTrace_scope.
    + destruct (registered _ _); [|by constructor]. cbn [fst].
      apply Forall_app; split.
      * each_call; simpl; auto.
      * apply Forall_sends. intros r. simpl. auto.
  - destruct (registered _ _); [|by constructor]. cbn [fst].
    constructor; [simpl; auto|].
    apply Forall_app; split.
    + apply Forall_sends. intros r. simpl. auto.
    + each_call; simpl; auto.
Qed.

(** A request changes neither the document nor the subscriptions, and adds
    or removes no registry entry. *)
Lemma processRequest_frame (m : VisualizationWindowMessage) (w : World) :
  let w' := (processRequest m w).1 in
  iframes w' = iframes w
  ∧ subscriptions w' = subscriptions w
  ∧ dom (_drawers w') = dom (_drawers w)
  ∧ (forall k, k ≠ configId m ->
       _drawers w' !! k = _drawers w !! k ∧ intervals w' !! k = intervals w !! k).
Proof.
  simpl. rewrite processRequest_trace. cbn [fst].
  pose proof (requestTrace_scope m w) as Hscope.
  split_and!.
  - by rewrite replay_iframes.
  - rewrite replay_subscriptions; [done|].
    eapply Forall_impl; [exact Hscope|]. by intros c (_ & _ & Hs).
  - by rewrite replay_dom.
  - intros k Hk. split.
    + rewrite replay_drawers_other; [done|].
      eapply Forall_impl; [exact Hscope|].
      intros c ([Hd|Hd] & _ & _); rewrite Hd; congruence.
    + rewrite replay_intervals_other; [done|].
      eapply Forall_impl; [exact Hscope|].
      intros c (_ & [Hi|Hi] & _); rewrite Hi; congruence.
Qed.

(** The world a disable request leaves, for a registered configId. *)
Lemma disable_world (m : VisualizationWindowMessage) (w : World) :
  isEnabled m = false ->
  is_Some (_drawers w !! configId m) ->
  let w' := (processRequest m w).1 in
  _drawers w' = alter Drawer.eraseLayout (configId m) (_drawers w)
  ∧ intervals w' = delete (configId m) (intervals w).
Proof.
  intros Hen Hk. simpl. rewrite processRequest_trace. unfold requestTrace.
  rewrite Hen, (registered_true _ _ Hk). cbn [fst].
  rewrite replay_cons, replay_app. split.
  - rewrite !replay_drawers_none; [done|..].
    + apply Forall_sends. done.
    + by each_call.
  - rewrite replay_cons. cbn [replay foldl].
    change (intervals (record ?c (effect ?c ?w0)))
      with (delete (configId m) (intervals w0)).
    rewrite replay_intervals_none; [done|]. apply Forall_sends. done.
Qed.

(** C4, as amended.  A disable request whose configId has a drawer in the
    registry completes normally; it erases the drawer of the current
    frame, sends one disable message to each iframe now in the document
    and clears the visibility check of the configId.  The calls are a function of the request and of the present
    document alone; the drawer is left without overlay and the configId
    without interval, and the document and the subscriptions are as
    before. *)
Theorem disable_reaches_every_iframe (m : VisualizationWindowMessage) (w : World) :
  isEnabled m = false ->
  is_Some (_drawers w !! configId m) ->
  let forwarded iframe :=
    {| command := "insights.draw";
       frame := Some iframe;
       message := {| visualizationType := visualizationType m;
                     isEnabled := false;
                     configId := configId m;
                     elementResults := None;
                     featureFlagStoreData := None |} |} in
  let made :=
    drawerEraseLayout (configId m)
    :: map (fun iframe => sendMessage (forwarded iframe)) (iframes w)
    ++ [clearVisibilityCheck (configId m) (visualizationType m)] in
  let w' := (processRequest m w).1 in
  (processRequest m w).2 = Normal tt
  ∧ calls w' = calls w ++ made
  ∧ sentRequests made = map forwarded (iframes w)
  ∧ (exists d, _drawers w' !! configId m = Some d ∧ Drawer.overlay d = [])
  ∧ intervals w' !! configId m = None
  ∧ iframes w' = iframes w.
Proof.
  intros Hen Hk forwarded made w'.
  destruct (disable_world m w Hen Hk) as [Hdrawers Hintervals].
  destruct (processRequest_frame m w) as (Hdoc & _).
  fold w' in Hdrawers, Hintervals, Hdoc.
  assert (Hsent : sentRequests made = map forwarded (iframes w)).
  { unfold made. change (sentRequests (?a :: ?l)) with (sentRequests l).
    unfold sentRequests. rewrite omap_app. simpl. rewrite app_nil_r.
    apply sentRequests_sends. }
  split_and!; [| |done| | |done].
  - rewrite processRequest_trace. unfold requestTrace.
    by rewrite Hen, (registered_true _ _ Hk).
  - unfold w'. rewrite processRequest_trace. unfold requestTrace.
    rewrite Hen, (registered_true _ _ Hk). cbn [fst]. by rewrite replay_calls.
  - destruct Hk as [d Hd]. exists (Drawer.eraseLayout d). split; [|done].
    by rewrite Hdrawers, lookup_alter_eq, Hd.
  - rewrite Hintervals. apply lookup_delete_eq.
Qed.

(** *** Enable requests with results *)

Lemma getInitialElements_filter (results : list Helper.AssessmentVisualizationInstance) :
  getInitialElements (Some results)
  = Some (filter (fun x => Helper.isVisible x ≠ Some false
                           ∧ Helper.isVisualizationEnabled x ≠ Some false) results).
Proof.
  unfold getInitialElements. f_equal. apply list_filter_iff. intros x.
  rewrite andb_true_iff, !negb_true_iff, !bool_decide_eq_false.
  done.
Qed.

Lemma enableTrace_scoped (m : VisualizationWindowMessage) known byFrames :
  (forall p, p ∈ byFrames -> Helper.frame p = None ->
     is_Some (featureFlagStoreData m) ∧ known = true) ->
  enableTrace known (featureFlagStoreData m) (visualizationType m) (configId m) byFrames
  = (concat (map (scopedEnableCalls m) byFrames), Normal tt).
Proof.
  induction byFrames as [|p rest IH]; intros Hcurrent; [done|].
  cbn [enableTrace map concat].
  rewrite IH by (intros q Hq; apply Hcurrent; by apply list_elem_of_further).
  cbn [fst snd]. generalize (concat (map (scopedEnableCalls m) rest)). intros others.
  unfold scopedEnableCalls.
  destruct (Helper.frame p) eqn:Hframe; [done|].
  destruct (Hcurrent p (list_elem_of_here _ _) Hframe) as [[flags Hflags] ->].
  rewrite Hflags. unfold trackingCalls, drawCalls.
  rewrite getInitialElements_filter. cbn [mbind option_bind].
  by rewrite <- app_assoc.
Qed.

(** C3, as amended.  An enable request whose elementResults are present
    completes normally and makes, partition after partition, the calls of
    [scopedEnableCalls], provided that, where the results have a partition
    for the current document, the request carries featureFlagStoreData and
    its configId has a drawer in the registry.  On the partition of the
    current document the visibility check is started only if the flag is
    set in the message's featureFlagStoreData, and the drawer is then
    initialized with the visible and enabled instances and drawn; on the
    partition of an iframe one scoped enable message is sent to that
    iframe with that partition's elementResults, the configId, the
    visualizationType and the featureFlagStoreData. *)
Theorem enable_with_results_is_scoped (m : VisualizationWindowMessage) (w : World)
    (results : list Helper.AssessmentVisualizationInstance) :
  isEnabled m = true ->
  elementResults m = Some results ->
  (forall p, p ∈ splitResultsByFrame (iframes w) results -> Helper.frame p = None ->
     is_Some (featureFlagStoreData m) ∧ is_Some (_drawers w !! configId m)) ->
  (processRequest m w).2 = Normal tt
  ∧ calls (processRequest m w).1
    = calls w
      ++ concat (map (scopedEnableCalls m) (splitResultsByFrame (iframes w) results)).
Proof.
  intros Hen Hres Hcurrent. rewrite processRequest_trace. unfold requestTrace.
  rewrite Hen, Hres, enableTrace_scoped.
  - cbn [fst snd]. by rewrite replay_calls.
  - intros p Hp Hframe. destruct (Hcurrent p Hp Hframe) as [Hflags Hk].
    split; [done|]. by apply registered_true.
Qed.

(** Without featureFlagStoreData the loop stops at the first partition of
    the current document; the partitions before it are iframes. *)
Lemma enableTrace_no_flags known vt configId byFrames :
  (exists p, p ∈ byFrames ∧ Helper.frame p = None) ->
  let t := enableTrace known None vt configId byFrames in
  t.2 = Throw (TypeError "this._featureFlagStoreData[...]")
  ∧ Forall (fun c => exists r, c = sendMessage r) t.1.
Proof.
  intros (p & Hp & Hnull). simpl.
  induction byFrames as [|q rest IH]; [by apply elem_of_nil in Hp|].
  cbn [enableTrace]. destruct (Helper.frame q) eqn:Hq.
  - apply elem_of_cons in Hp as [->|Hp]; [congruence|].
    destruct (IH Hp) as [Hout Hcalls]. cbn [fst snd]. split; [done|].
    constructor; [eauto|done].
  - by split.
Qed.

(** C10.  An enable request that carries elementResults but no
    featureFlagStoreData, and whose results have a partition for the
    current document, throws at the feature-flag lookup: nothing is
    tracked, initialized or drawn, and nothing was done but sending to
    iframes. *)
Theorem enable_with_results_needs_featureFlagStoreData
    (m : VisualizationWindowMessage) (w : World)
    (results : list Helper.AssessmentVisualizationInstance) :
  isEnabled m = true ->
  elementResults m = Some results ->
  featureFlagStoreData m = None ->
  (exists p, p ∈ splitResultsByFrame (iframes w) results ∧ Helper.frame p = None) ->
  let w' := (processRequest m w).1 in
  (processRequest m w).2 = Throw (TypeError "this._featureFlagStoreData[...]")
  ∧ (exists made, calls w' = calls w ++ made
                  ∧ Forall (fun c => exists r, c = sendMessage r) made)
  ∧ _drawers w' = _drawers w
  ∧ intervals w' = intervals w.
Proof.
  intros Hen Hres Hff Hnull. simpl.
  rewrite processRequest_trace. unfold requestTrace. rewrite Hen, Hres, Hff.
  destruct (enableTrace_no_flags (registered (configId m) w)
              (visualizationType m) (configId m) _ Hnull) as [Hout Hcalls].
  simpl in Hout, Hcalls. cbn [fst snd]. split_and!.
  - done.
  - eexists. split; [by rewrite replay_calls|done].
  - rewrite replay_drawers_none; [done|].
    eapply Forall_impl; [exact Hcalls|]. by intros c [r ->].
  - rewrite replay_intervals_none; [done|].
    eapply Forall_impl; [exact Hcalls|]. by intros c [r ->].
Qed.

(** *** What the drawer of the current frame is given *)

Lemma initializations_app (cs1 cs2 : list Call) :
  initializations (cs1 ++ cs2) = initializations cs1 ++ initializations cs2.
Proof. apply omap_app. Qed.

Lemma initializations_trackingCalls vt configId flags results :
  initializations (trackingCalls vt configId flags results) = [].
Proof.
  unfold trackingCalls. by destruct (flags !! showInstanceVisibility) as [[]|].
Qed.

Lemma enableTrace_initializations known ff vt configId byFrames :
  let t := enableTrace known ff vt configId byFrames in
  let given (p : Helper.HTMLIFrameResult) :=
    (configId, {| Drawer.data := getInitialElements (Some (Helper.elementResults p));
                  Drawer.featureFlagStoreData := ff |}) in
  let current := filter (fun p => Helper.frame p = None) byFrames in
  (forall x, x ∈ initializations t.1 -> x ∈ map given current)
  ∧ (t.2 = Normal tt -> initializations t.1 = map given current).
Proof.
  simpl. induction byFrames as [|p rest [IHin IHall]]; [by split|].
  cbn [enableTrace]. destruct (Helper.frame p) eqn:Hp.
  - rewrite filter_cons_False by congruence. by split.
  - rewrite filter_cons_True by done. cbn [map].
    destruct ff as [flags|]; [|split; [by intros x ?%elem_of_nil|done]].
    destruct known.
    + cbn [fst snd]. rewrite !initializations_app, initializations_trackingCalls.
      cbn [app]. change (initializations (drawCalls ?c ?f ?r))
        with [(c, {| Drawer.data := getInitialElements r;
                     Drawer.featureFlagStoreData := f |})].
      cbn [app]. split.
      * intros x [->|Hx]%elem_of_cons; [by left|]. right. by apply IHin.
      * intros Hout. by rewrite IHall.
    + cbn [fst snd]. rewrite initializations_trackingCalls.
      split; [by intros x ?%elem_of_nil|done].
Qed.

(** C1.  Whatever an enable request with elementResults passes to a drawer
    goes to the drawer of the request's configId and is, for some
    partition of the current document, exactly the instances of that
    partition whose isVisible is not false and whose isVisualizationEnabled
    is not false, in their order; and when the request completes, the
    drawer has been given this for every partition of the current
    document. *)
Theorem drawer_is_given_the_visible_enabled_instances
    (m : VisualizationWindowMessage) (w : World)
    (results : list Helper.AssessmentVisualizationInstance) :
  isEnabled m = true ->
  elementResults m = Some results ->
  let byFrames := splitResultsByFrame (iframes w) results in
  let visibleEnabled (p : Helper.HTMLIFrameResult) :=
    filter (fun x => Helper.isVisible x ≠ Some false
                     ∧ Helper.isVisualizationEnabled x ≠ Some false)
      (Helper.elementResults p) in
  exists made,
    calls (processRequest m w).1 = calls w ++ made
    ∧ (forall drawer cfg, (drawer, cfg) ∈ initializations made ->
         drawer = configId m
         ∧ exists p, p ∈ byFrames ∧ Helper.frame p = None
                     ∧ Drawer.data cfg = Some (visibleEnabled p))
    ∧ ((processRequest m w).2 = Normal tt ->
         initializations made
         = map (fun p => (configId m,
                          {| Drawer.data := Some (visibleEnabled p);
                             Drawer.featureFlagStoreData := featureFlagStoreData m |}))
             (filter (fun p => Helper.frame p = None) byFrames)).
Proof.
  intros Hen Hres byFrames visibleEnabled.
  rewrite processRequest_trace. unfold requestTrace. rewrite Hen, Hres.
  fold byFrames.
  destruct (enableTrace_initializations (registered (configId m) w)
              (featureFlagStoreData m) (visualizationType m) (configId m) byFrames)
    as [Hin Hall].
  cbv zeta in Hin, Hall. eexists. split_and!.
  - cbn [fst]. by rewrite replay_calls.
  - intros drawer cfg Hgiven. apply Hin in Hgiven.
    apply list_elem_of_fmap in Hgiven as (p & Heq & Hp).
    apply list_elem_of_filter in Hp as [Hnull Hp].
    injection Heq as -> ->. split; [done|].
    exists p. split_and!; [done|done|]. cbn [Drawer.data].
    apply getInitialElements_filter.
  - intros Hout. rewrite (Hall Hout). apply map_ext. intros p.
    by rewrite getInitialElements_filter.
Qed.

(** *** The subscribed handler *)

(** C9, as amended.  When [processRequest] completes normally on an
    incoming message, the subscribed handler then invokes the responder
    with [null] if one is supplied, and does nothing more and completes
    normally if none is. *)
Theorem handler_acknowledges_a_processed_request
    (m : VisualizationWindowMessage) (w : World) :
  (processRequest m w).2 = Normal tt ->
  let w' := (processRequest m w).1 in
  (forall responder,
     onTriggerVisualization m (Some responder) w
     = (record (respond responder null) w', Normal tt))
  ∧ onTriggerVisualization m None w = (w', Normal tt).
Proof.
  intros Hout. simpl. unfold onTriggerVisualization.
  split; [intros responder|]; rewrite bind_run;
    destruct (processRequest m w) as [w' out]; simpl in Hout; by subst out.
Qed.

(** When [processRequest] throws, the handler throws and the responder is
    not invoked. *)
Lemma handler_rethrows (m : VisualizationWindowMessage) (w : World)
    (responder : option string) (e : Exception) :
  (processRequest m w).2 = Throw e ->
  onTriggerVisualization m responder w = ((processRequest m w).1, Throw e).
Proof.
  intros Hout. unfold onTriggerVisualization. rewrite bind_run.
  destruct (processRequest m w) as [w' out]; simpl in Hout; by subst out.
Qed.

End Requests.

(** ** The registry *)

Lemma with_drawers_id (w : World) : with_drawers (fun m => m) w = w.
Proof. by destruct w. Qed.

Lemma insert_all_foldr {A} (entries : list (string * A)) (m : gmap string A) :
  foldl (fun m e => <[e.1 := e.2]> m) m entries
  = foldr (fun e => <[e.1 := e.2]>) m (reverse entries).
Proof.
  revert m. induction entries as [|e entries IH]; intros m; [done|].
  simpl. by rewrite IH, reverse_cons, foldr_app.
Qed.

Lemma assignAll_app (first others : list (string * Drawer.Drawer)) (w : World) :
  assignAll (first ++ others) w = assignAll others (assignAll first w).
Proof. apply foldl_app. Qed.

Lemma assignAll_drawers (entries : list (string * Drawer.Drawer)) (w : World) :
  _drawers (assignAll entries w) = foldl (fun m e => <[e.1 := e.2]> m) (_drawers w) entries.
Proof.
  revert w. induction entries as [|e entries IH]; intros w; [done|].
  cbn [assignAll foldl]. apply (IH (assignDrawer e.1 e.2 w)).
Qed.

Lemma assignAll_frame (entries : list (string * Drawer.Drawer)) (w : World) :
  let w' := assignAll entries w in
  calls w' = calls w ∧ intervals w' = intervals w
  ∧ subscriptions w' = subscriptions w ∧ iframes w' = iframes w
  ∧ _featureFlagStoreData w' = _featureFlagStoreData w.
Proof.
  simpl. revert w. induction entries as [|e entries IH]; intros w; [done|].
  cbn [assignAll foldl]. apply (IH (assignDrawer e.1 e.2 w)).
Qed.

Lemma forEach_register {A} (id : A -> string) (drawer : A -> Drawer.Drawer)
    (xs : list A) (w : World) :
  forEach xs (fun x => modify (assignDrawer (id x) (drawer x))) w
  = (assignAll (map (fun x => (id x, drawer x)) xs) w, Normal tt).
Proof.
  revert w. induction xs as [|x xs IH]; intros w; [done|].
  simpl. rewrite bind_run. unfold modify at 1. cbv beta iota. by rewrite IH.
Qed.

Lemma erase_all_lookup (ids : list string) (w : World) (k : string) :
  _drawers (replay (map drawerEraseLayout ids) w) !! k
  = if decide (k ∈ ids) then Drawer.eraseLayout <$> _drawers w !! k
    else _drawers w !! k.
Proof.
  revert w. induction ids as [|id ids IH]; intros w; [done|].
  cbn [map]. rewrite replay_cons, IH.
  change (_drawers (record ?c (effect (drawerEraseLayout id) w)))
    with (alter Drawer.eraseLayout id (_drawers w)).
  destruct (decide (id = k)) as [->|Hne].
  - rewrite lookup_alter_eq.
    destruct (decide (k ∈ k :: ids)) as [_|Hn]; [|exfalso; apply Hn; left].
    destruct (decide (k ∈ ids)); [|done]. by destruct (_drawers w !! k).
  - rewrite lookup_alter_ne by done.
    destruct (decide (k ∈ ids)) as [Hin|Hnin];
      destruct (decide (k ∈ id :: ids)) as [Hin'|Hnin']; try done.
    + exfalso. apply Hnin'. by right.
    + apply elem_of_cons in Hin' as [->|?]; done.
Qed.

Section Registry.
Context `{Dependencies}.

Lemma setupDrawers_run (w : World) :
  setupDrawers w = (assignAll configuredDrawers w, Normal tt).
Proof.
  unfold setupDrawers, configuredDrawers.
  revert w. induction numericValues as [|vt vts IH]; intros w; [done|].
  cbn [forEach flat_map]. rewrite bind_run, assignAll_app.
  destruct (isValidType vt).
  - rewrite (forEach_register
               (fun entry : string * TestStep =>
                  getIdentifier (getConfiguration vt) (Some (key entry.2)))
               (fun entry : string * TestStep =>
                  getDrawer (getConfiguration vt) drawerProvider
                    (Some (getIdentifier (getConfiguration vt) (Some (key entry.2)))))).
    by rewrite IH.
  - unfold modify at 1. cbv beta iota. by rewrite IH.
Qed.

Lemma initialize_run (w : World) :
  initialize w
  = (assignAll configuredDrawers
       (record (subscribe "insights.draw" onTriggerVisualizationHandler)
          (with_subscriptions (insert "insights.draw" onTriggerVisualizationHandler) w)),
     Normal tt).
Proof. unfold initialize. rewrite bind_run, call_run. apply setupDrawers_run. Qed.

Lemma dispose_run (w : World) :
  dispose w = (replay (map drawerEraseLayout (ownKeys (_drawerKeys w))) w, Normal tt).
Proof.
  unfold dispose. rewrite bind_run. unfold gets at 1. cbv beta iota.
  apply (forEach_calls drawerEraseLayout).
Qed.

(** *** The registry as an object *)

Lemma registryObject_constructed (document : list HTMLIFrameElement) :
  registryObject (constructed document).
Proof.
  split; [apply NoDup_nil_2|]. intros id. cbn [constructed _drawerKeys _drawers].
  rewrite elem_of_nil, lookup_empty. split; [done|]. intros [_ []]. done.
Qed.

Lemma registryObject_assignDrawer id d (w : World) :
  registryObject w -> registryObject (assignDrawer id d w).
Proof.
  intros [Hnd Hkeys]. unfold registryObject. cbn [assignDrawer _drawerKeys _drawers].
  case_bool_decide as Hold.
  - split; [done|]. intros k. rewrite Hkeys.
    destruct (decide (k = id)) as [->|Hne].
    + rewrite lookup_insert_eq. destruct Hold as [->|Hin].
      * split; [by intros [? _]|]. by intros [? _].
      * apply Hkeys in Hin as [Hproto Hsome]. split; [by intros _|by intros _].
    + by rewrite lookup_insert_ne.
  - assert (Hproto : id ≠ "__proto__") by (intros Hid; apply Hold; by left).
    assert (Hnew : id ∉ _drawerKeys w) by (intros Hin; apply Hold; by right).
    split.
    + apply NoDup_app. split_and!; [done| |apply NoDup_singleton].
      intros k Hk Hk'. apply list_elem_of_singleton in Hk'. by subst k.
    + intros k. rewrite elem_of_app, list_elem_of_singleton, Hkeys.
      destruct (decide (k = id)) as [->|Hne].
      * rewrite lookup_insert_eq. split; [|by right]. intros _. eauto.
      * rewrite lookup_insert_ne by done. split; [|by left]. by intros [?|?].
Qed.

Lemma registryObject_assignAll entries (w : World) :
  registryObject w -> registryObject (assignAll entries w).
Proof.
  revert w. induction entries as [|e entries IH]; intros w Hw; [done|].
  cbn [assignAll foldl]. apply (IH (assignDrawer e.1 e.2 w)).
  by apply registryObject_assignDrawer.
Qed.

Lemma replay_drawerKeys (cs : list Call) (w : World) :
  _drawerKeys (replay cs w) = _drawerKeys w.
Proof.
  revert w. induction cs as [|c cs IH]; intros w; [done|].
  rewrite replay_cons, IH. by destruct c.
Qed.

Lemma registryObject_replay (cs : list Call) (w : World) :
  registryObject w -> registryObject (replay cs w).
Proof.
  intros [Hnd Hkeys]. unfold registryObject. rewrite replay_drawerKeys.
  split; [done|]. intros id. by rewrite replay_is_Some.
Qed.

Lemma registryObject_processRequest (m : VisualizationWindowMessage) (w : World) :
  registryObject w -> registryObject (processRequest m w).1.
Proof.
  intros Hw. rewrite processRequest_trace. cbn [fst].
  by apply registryObject_replay.
Qed.

Lemma registryObject_perform (w : World) (operation : Operation) :
  registryObject w -> registryObject (perform w operation).
Proof.
  intros Hw. destruct operation as [|document m|document m responder|]; cbn [perform].
  - rewrite initialize_run. cbn [fst]. by apply registryObject_assignAll.
  - by apply registryObject_processRequest.
  - unfold onTriggerVisualization. rewrite bind_run.
    pose proof (registryObject_processRequest m (with_iframes document w) Hw) as Hw'.
    destruct (processRequest m (with_iframes document w)) as [w' [[]|e]]; [|done].
    destruct responder as [responder|]; [|done]. done.
  - rewrite dispose_run. cbn [fst]. by apply registryObject_replay.
Qed.

Lemma registryObject_lifetime (document : list HTMLIFrameElement)
    (operations : list Operation) :
  registryObject (lifetime document operations).
Proof.
  unfold lifetime.
  generalize (registryObject_constructed document).
  generalize (constructed document).
  induction operations as [|operation operations IH]; intros w Hw; [done|].
  cbn [foldl]. apply IH. by apply registryObject_perform.
Qed.

(** The enumeration lists the created keys, each as often as it was
    listed. *)
Lemma ownKeys_Permutation (created : list string) : ownKeys created ≡ₚ created.
Proof.
  unfold ownKeys.
  rewrite merge_sort_Permutation.
  assert (Hindexed :
    (omap (fun k => if arrayIndex k is Some n then Some (n, k) else None) created).*2
    = filter (fun k => ¬ arrayIndex k = None) created).
  { induction created as [|k created IH]; [done|].
    rewrite filter_cons. cbn [omap list_omap]. cbv beta.
    destruct (arrayIndex k) as [n|].
    - rewrite decide_True by done. rewrite fmap_cons. cbn [snd]. f_equal. apply IH.
    - rewrite decide_False by (intros Hn; by apply Hn). apply IH. }
  rewrite Hindexed.
  rewrite (Permutation_app_comm _ _).
  apply (filter_app_complement (fun k => arrayIndex k = None)).
Qed.


Lemma initialize_drawers (document : list HTMLIFrameElement) :
  _drawers (initialize (constructed document)).1 = list_to_map (reverse configuredDrawers).
Proof. rewrite initialize_run. cbn [fst]. rewrite assignAll_drawers. apply insert_all_foldr. Qed.

Lemma initialize_lookup (document : list HTMLIFrameElement) id d :
  _drawers (initialize (constructed document)).1 !! id = Some d ->
  (id, d) ∈ configuredDrawers.
Proof.
  rewrite initialize_drawers. intros Hd.
  apply elem_of_list_to_map_2 in Hd. by rewrite elem_of_reverse in Hd.
Qed.

Lemma initialize_dom (document : list HTMLIFrameElement) :
  dom (_drawers (initialize (constructed document)).1)
  = list_to_set configuredDrawers.*1.
Proof.
  rewrite initialize_drawers, dom_list_to_map_L.
  apply set_eq. intros id.
  by rewrite !elem_of_list_to_set, fmap_reverse, elem_of_reverse.
Qed.

(** C8.  [initialize()] completes normally and leaves as registry the
    entries of [configuredDrawers], entered in enumeration order: its keys
    are the identifiers the configurations give, and under each key lies
    one drawer, which a configuration built for that key.  Neither
    [processRequest] nor [dispose] adds or removes a key. *)
Theorem registry_is_built_by_initialize_and_keeps_its_keys :
  (forall document,
     let w := (initialize (constructed document)).1 in
     (initialize (constructed document)).2 = Normal tt
     ∧ _drawers w = list_to_map (reverse configuredDrawers)
     ∧ dom (_drawers w) = list_to_set configuredDrawers.*1
     ∧ (forall id d, _drawers w !! id = Some d -> (id, d) ∈ configuredDrawers))
  ∧ (forall m w, dom (_drawers (processRequest m w).1) = dom (_drawers w))
  ∧ (forall w, dom (_drawers (dispose w).1) = dom (_drawers w)).
Proof.
  split_and!.
  - intros document w. unfold w. split_and!.
    + by rewrite initialize_run.
    + apply initialize_drawers.
    + apply initialize_dom.
    + apply initialize_lookup.
  - intros m w. apply (processRequest_frame m w).
  - intros w. rewrite dispose_run. apply replay_dom.
Qed.

End Registry.

(** ** Disabling what was never enabled *)

Section History.
Context `{Dependencies}.

Lemma configuredDrawers_built id d :
  (id, d) ∈ configuredDrawers ->
  exists vt step, d = getDrawer (getConfiguration vt) drawerProvider step.
Proof.
  unfold configuredDrawers. intros Hin.
  apply list_elem_of_In, in_flat_map in Hin as (vt & _ & Hin).
  exists vt. destruct (isValidType vt).
  - apply in_map_iff in Hin as (entry & [= _ <-] & _). eauto.
  - destruct Hin as [[= _ <-]|[]]. eauto.
Qed.

Lemma uninitialized_after_initialize (document : list HTMLIFrameElement) configId :
  (forall vt step,
     Drawer.overlay (getDrawer (getConfiguration vt) drawerProvider step) = []) ->
  configId ∈ configuredDrawers.*1 ->
  uninitialized configId (initialize (constructed document)).1.
Proof.
  intros Hidle Hin. split.
  - assert (Hsome : is_Some (_drawers (initialize (constructed document)).1 !! configId)).
    { apply elem_of_dom. rewrite initialize_dom. by apply elem_of_list_to_set. }
    destruct Hsome as [d Hd]. exists d. split; [done|].
    apply initialize_lookup, configuredDrawers_built in Hd as (vt & step & ->).
    apply Hidle.
  - rewrite initialize_run. cbn [fst].
    by destruct (assignAll_frame configuredDrawers
      (record (subscribe "insights.draw" onTriggerVisualizationHandler)
         (with_subscriptions (insert "insights.draw" onTriggerVisualizationHandler)
            (constructed document)))) as (_ & -> & _).
Qed.

Lemma uninitialized_disable (m : VisualizationWindowMessage) (w : World) :
  isEnabled m = false ->
  uninitialized (configId m) w ->
  (processRequest m w).2 = Normal tt
  ∧ _drawers (processRequest m w).1 = _drawers w
  ∧ intervals (processRequest m w).1 = intervals w.
Proof.
  intros Hen [(d & Hd & Hoverlay) Hnone].
  assert (Hk : is_Some (_drawers w !! configId m)) by eauto.
  destruct (disable_world m w Hen Hk) as [-> ->]. split_and!.
  - rewrite processRequest_trace. unfold requestTrace.
    by rewrite Hen, (registered_true _ _ Hk).
  - apply alter_id. intros d' Hd'. rewrite Hd in Hd'. injection Hd' as <-.
    destruct d as [v c o]. simpl in Hoverlay. by subst o.
  - by apply delete_id.
Qed.

Lemma uninitialized_deliver configId (w : World)
    (event : list HTMLIFrameElement * VisualizationWindowMessage) :
  ¬ (isEnabled event.2 = true ∧ DrawingController.configId event.2 = configId) ->
  uninitialized configId w ->
  uninitialized configId (deliver w event).
Proof.
  destruct event as [document m]. cbn [fst snd]. intros Hnot Hun.
  unfold deliver. cbn [fst snd]. set (w1 := with_iframes document w).
  change (uninitialized configId w1) in Hun.
  destruct (decide (DrawingController.configId m = configId)) as [Heq|Hne].
  - assert (Hen : isEnabled m = false).
    { destruct (isEnabled m); [|done]. by destruct Hnot. }
    subst configId.
    destruct (uninitialized_disable m w1 Hen Hun) as (_ & Hd & Hi).
    unfold uninitialized. by rewrite Hd, Hi.
  - destruct (processRequest_frame m w1) as (_ & _ & _ & Hother).
    destruct (Hother configId) as [Hd Hi]; [done|].
    unfold uninitialized. by rewrite Hd, Hi.
Qed.

Lemma uninitialized_history configId events (w : World) :
  Forall (fun event =>
            ¬ (isEnabled event.2 = true ∧ DrawingController.configId event.2 = configId))
    events ->
  uninitialized configId w ->
  uninitialized configId (history events w).
Proof.
  intros Hevents. revert w. unfold history.
  induction Hevents as [|event events Hevent _ IH]; intros w Hun; [done|].
  simpl. apply IH. by apply uninitialized_deliver.
Qed.

(** C6, as amended.  Take a configId in the uninitialized state, its
    drawer registered with nothing drawn and no visibility interval, and
    any sequence of requests since among which none enables that configId.
    A disable request for that configId then completes normally and leaves
    every drawer, hence every overlay node, and every visibility interval
    as it was: [eraseLayout] and [clearVisibilityCheck] are no-ops
    there. *)
Theorem disable_without_prior_enable_is_a_no_op
    (w0 : World) (now : list HTMLIFrameElement)
    (events : list (list HTMLIFrameElement * VisualizationWindowMessage))
    (m : VisualizationWindowMessage) :
  uninitialized (configId m) w0 ->
  Forall (fun event => ¬ (isEnabled event.2 = true ∧ configId event.2 = configId m))
    events ->
  isEnabled m = false ->
  let w := with_iframes now (history events w0) in
  (processRequest m w).2 = Normal tt
  ∧ _drawers (processRequest m w).1 = _drawers w
  ∧ intervals (processRequest m w).1 = intervals w.
Proof.
  intros Hstart Hevents Hen w.
  apply uninitialized_disable; [done|].
  change (uninitialized (configId m) (history events w0)).
  by apply uninitialized_history.
Qed.

End History.

(** ** Splitting results by frame *)

Section Split.
Implicit Types (x : Helper.AssessmentVisualizationInstance).
Implicit Types (groups : list (option string * list Helper.AssessmentVisualizationInstance)).
Implicit Types (document : list HTMLIFrameElement).

Lemma addToGroup_concat path x groups :
  concat (Helper.addToGroup path x groups).*2 ≡ₚ x :: concat groups.*2.
Proof.
  induction groups as [|[path' xs] rest IH]; [done|].
  simpl. case_decide; simpl.
  - rewrite <- app_assoc. simpl. by rewrite <- Permutation_middle.
  - rewrite IH. by rewrite <- Permutation_middle.
Qed.

Lemma addToGroup_keys path x groups :
  (Helper.addToGroup path x groups).*1
  = if decide (path ∈ groups.*1) then groups.*1 else groups.*1 ++ [path].
Proof.
  induction groups as [|[path' xs] rest IH]; [done|].
  cbn [Helper.addToGroup fmap list_fmap fst].
  destruct (decide (path = path')) as [->|Hne]; cbn [fmap list_fmap fst].
  - destruct (decide (path' ∈ path' :: rest.*1)) as [_|Hn]; [done|].
    exfalso. apply Hn. left.
  - rewrite IH.
    destruct (decide (path ∈ rest.*1)) as [Hin|Hnin];
      destruct (decide (path ∈ path' :: rest.*1)) as [Hin'|Hnin']; try done.
    + exfalso. apply Hnin'. by right.
    + apply elem_of_cons in Hin' as [?|?]; done.
Qed.

Lemma addToGroup_NoDup path x groups :
  NoDup groups.*1 -> NoDup (Helper.addToGroup path x groups).*1.
Proof.
  intros Hnd. rewrite addToGroup_keys. case_decide as Hin; [done|].
  apply NoDup_app. split_and!; [done| |apply NoDup_singleton].
  intros y Hy ->%list_elem_of_singleton. done.
Qed.

Lemma addToGroup_owned x groups :
  Helper.owned groups -> Helper.owned (Helper.addToGroup (Helper.framePath x) x groups).
Proof.
  unfold Helper.owned. induction 1 as [|[path' xs] rest Hhead Hrest IH].
  - simpl. by repeat constructor.
  - cbn [Helper.addToGroup]. case_decide as Heq; constructor; try done.
    cbn [fst snd] in *. apply Forall_app. split; [done|].
    constructor; [done|constructor].
Qed.

Lemma groupByFramePath_from groups results :
  let grouped :=
    foldl (fun gs x => Helper.addToGroup (Helper.framePath x) x gs) groups results in
  NoDup groups.*1 -> Helper.owned groups ->
  concat grouped.*2 ≡ₚ concat groups.*2 ++ results
  ∧ NoDup grouped.*1 ∧ Helper.owned grouped.
Proof.
  simpl. revert groups.
  induction results as [|x results IH]; intros groups Hnd Hown.
  - simpl. by rewrite app_nil_r.
  - simpl.
    destruct (IH (Helper.addToGroup (Helper.framePath x) x groups))
      as (Hperm & Hnd' & Hown').
    { by apply addToGroup_NoDup. }
    { by apply addToGroup_owned. }
    split_and!; [|done|done].
    rewrite Hperm, addToGroup_concat. by rewrite <- Permutation_middle.
Qed.

Lemma NoDup_fmap_eq {A B} (f : A -> B) (l : list A) (a b : A) :
  NoDup (f <$> l) -> a ∈ l -> b ∈ l -> f a = f b -> a = b.
Proof.
  induction l as [|c l IH]; intros Hnd Ha Hb Hf; [by apply elem_of_nil in Ha|].
  rewrite fmap_cons in Hnd. apply NoDup_cons in Hnd as [Hc Hnd].
  apply elem_of_cons in Ha as [->|Ha]; apply elem_of_cons in Hb as [->|Hb].
  - done.
  - exfalso. apply Hc. rewrite Hf. by apply list_elem_of_fmap_2.
  - exfalso. apply Hc. rewrite <- Hf. by apply list_elem_of_fmap_2.
  - by apply IH.
Qed.

(** C5.  The partitions of [splitResultsByFrame] hold, taken together,
    exactly the instances of the input, each as often as the input has
    it; no two partitions are for the same frame, an instance lies in the
    partition of the frame its frame path names, and so every instance of
    the input is in one partition and in no other. *)
Theorem splitResultsByFrame_partitions_the_results
    document (results : list Helper.AssessmentVisualizationInstance) :
  let byFrames := Helper.splitResultsByFrame document results in
  concat (Helper.elementResults <$> byFrames) ≡ₚ results
  ∧ NoDup (Helper.frame <$> byFrames)
  ∧ (forall p x, p ∈ byFrames -> x ∈ Helper.elementResults p ->
       Helper.framePath x = Helper.frame p)
  ∧ (forall x, x ∈ results ->
       exists p, p ∈ byFrames ∧ x ∈ Helper.elementResults p
         ∧ forall q, q ∈ byFrames -> x ∈ Helper.elementResults q -> q = p).
Proof.
  simpl. unfold Helper.splitResultsByFrame, Helper.groupByFramePath.
  destruct (groupByFramePath_from [] results) as (Hperm & Hnd & Hown).
  { constructor. }
  { constructor. }
  cbv zeta in Hperm, Hnd, Hown.
  set (groups := foldl _ [] results) in *.
  assert (Hconcat : concat (Helper.elementResults <$> map Helper.partitionOf groups)
                    ≡ₚ results).
  { change (map Helper.partitionOf groups) with (Helper.partitionOf <$> groups).
    rewrite <- list_fmap_compose. exact Hperm. }
  assert (Hframes : NoDup (Helper.frame <$> map Helper.partitionOf groups)).
  { change (map Helper.partitionOf groups) with (Helper.partitionOf <$> groups).
    rewrite <- list_fmap_compose. exact Hnd. }
  assert (Howner : forall p x, p ∈ map Helper.partitionOf groups ->
            x ∈ Helper.elementResults p -> Helper.framePath x = Helper.frame p).
  { intros p x Hp Hx.
    apply list_elem_of_fmap in Hp as (g & -> & Hg).
    unfold Helper.owned in Hown. rewrite Forall_forall in Hown.
    specialize (Hown g Hg). rewrite Forall_forall in Hown. by apply Hown. }
  split_and!; [done|done|done|].
  intros x Hx. rewrite <- Hconcat in Hx.
  apply list_elem_of_In, in_concat in Hx as (xs & Hxs & Hx).
  apply list_elem_of_In in Hxs, Hx.
  apply list_elem_of_fmap in Hxs as (p & -> & Hp).
  exists p. split_and!; [done|done|].
  intros q Hq Hxq. apply (NoDup_fmap_eq Helper.frame _ _ _ Hframes Hq Hp).
  by rewrite <- (Howner q x Hq Hxq), <- (Howner p x Hp Hx).
Qed.

End Split.

(** ** The properties on the small configuration *)

Lemma issues_is_registered : is_Some (_drawers Example.world !! "issues").
Proof. vm_compute. eauto. Defined.

(** The visibility filter of section 8: of the four instances hidden,
    disabled, unset and shown, the drawer is given the last two. *)
Lemma visibility_filter_example :
  isEnabled Example.enableWithResults = true
  ∧ elementResults Example.enableWithResults
    = Some [Example.hidden; Example.disabled; Example.nested; Example.unset; Example.shown]
  ∧ exists made,
      calls (@processRequest Example.dependencies Example.enableWithResults Example.world).1
      = calls Example.world ++ made
      ∧ initializations made
        = [("issues",
            {| Drawer.data := Some [Example.unset; Example.shown];
               Drawer.featureFlagStoreData := Some Example.flagsOn |})].
Proof.
  split; [reflexivity|]. split; [reflexivity|].
  destruct (@drawer_is_given_the_visible_enabled_instances Example.dependencies
              Example.enableWithResults Example.world _ eq_refl eq_refl)
    as (made & Hcalls & _ & Hall).
  exists made. split; [exact Hcalls|].
  rewrite Hall by (vm_compute; reflexivity). vm_compute. reflexivity.
Defined.

Lemma enable_without_results_example :
  isEnabled Example.enableWithoutResults = true
  ∧ elementResults Example.enableWithoutResults = None
  ∧ is_Some (_drawers Example.world !! configId Example.enableWithoutResults)
  ∧ (@processRequest Example.dependencies Example.enableWithoutResults Example.world).2
    = Normal tt
  ∧ length (sentRequests
              (drop (length (calls Example.world))
                 (calls (@processRequest Example.dependencies
                           Example.enableWithoutResults Example.world).1)))
    = length Example.document.
Proof.
  split; [reflexivity|]. split; [reflexivity|]. split; [exact issues_is_registered|].
  destruct (@enable_without_results_reaches_every_iframe Example.dependencies
              Example.enableWithoutResults Example.world eq_refl eq_refl
              issues_is_registered)
    as (Hout & Hcalls & _ & Hcount).
  split; [exact Hout|].
  rewrite Hcalls, drop_app_length. exact Hcount.
Defined.

Lemma enable_with_results_example :
  isEnabled Example.enableWithResults = true
  ∧ (forall p,
       p ∈ @splitResultsByFrame Example.dependencies (iframes Example.world)
             [Example.hidden; Example.disabled; Example.nested; Example.unset;
              Example.shown] ->
       Helper.frame p = None ->
       is_Some (featureFlagStoreData Example.enableWithResults)
       ∧ is_Some (_drawers Example.world !! configId Example.enableWithResults))
  ∧ (@processRequest Example.dependencies Example.enableWithResults Example.world).2
    = Normal tt
  ∧ calls (@processRequest Example.dependencies Example.enableWithResults Example.world).1
    = calls Example.world
      ++ [createVisibilityCheckerInterval "issues" 0
            [Example.hidden; Example.disabled; Example.unset; Example.shown];
          drawerInitialize "issues"
            {| Drawer.data := Some [Example.unset; Example.shown];
               Drawer.featureFlagStoreData := Some Example.flagsOn |};
          drawerDrawLayout "issues";
          sendMessage
            {| command := "insights.draw";
               frame := Some "#frame1";
               message := {| visualizationType := 0;
                             isEnabled := true;
                             configId := "issues";
                             elementResults := Some [Example.nested];
                             featureFlagStoreData := Some Example.flagsOn |} |}].
Proof.
  assert (Hcurrent : forall p,
    p ∈ @splitResultsByFrame Example.dependencies (iframes Example.world)
          [Example.hidden; Example.disabled; Example.nested; Example.unset;
           Example.shown] ->
    Helper.frame p = None ->
    is_Some (featureFlagStoreData Example.enableWithResults)
    ∧ is_Some (_drawers Example.world !! configId Example.enableWithResults)).
  { intros p _ _. split; [by eexists|exact issues_is_registered]. }
  split; [reflexivity|]. split; [exact Hcurrent|].
  destruct (@enable_with_results_is_scoped Example.dependencies
              Example.enableWithResults Example.world _ eq_refl eq_refl Hcurrent)
    as (Hout & Hcalls).
  split; [exact Hout|]. rewrite Hcalls. vm_compute. reflexivity.
Defined.

Lemma disable_example :
  isEnabled Example.disable = false
  ∧ is_Some (_drawers Example.world !! configId Example.disable)
  ∧ (@processRequest Example.dependencies Example.disable Example.world).2 = Normal tt
  ∧ sentRequests
      (drop (length (calls Example.world))
         (calls (@processRequest Example.dependencies Example.disable Example.world).1))
    = map (fun iframe =>
             {| command := "insights.draw";
                frame := Some iframe;
                message := Example.disable |})
        Example.document.
Proof.
  split; [reflexivity|]. split; [exact issues_is_registered|].
  destruct (@disable_reaches_every_iframe Example.dependencies
              Example.disable Example.world eq_refl issues_is_registered)
    as (Hout & Hcalls & Hsent & _).
  split; [exact Hout|].
  rewrite Hcalls, drop_app_length. exact Hsent.
Defined.

Lemma enable_without_flags_example :
  isEnabled Example.enableWithResultsNoFlags = true
  ∧ featureFlagStoreData Example.enableWithResultsNoFlags = None
  ∧ (exists p, p ∈ HtmlElementAxeResultsHelper.splitResultsByFrame
                     (iframes Example.world) [Example.nested; Example.unset]
               ∧ Helper.frame p = None)
  ∧ (@processRequest Example.dependencies Example.enableWithResultsNoFlags Example.world).2
    = Throw (TypeError "this._featureFlagStoreData[...]")
  ∧ _drawers (@processRequest Example.dependencies
                Example.enableWithResultsNoFlags Example.world).1
    = _drawers Example.world.
Proof.
  assert (Hnull : exists p,
             p ∈ HtmlElementAxeResultsHelper.splitResultsByFrame
                   (iframes Example.world) [Example.nested; Example.unset]
             ∧ Helper.frame p = None).
  { exists {| Helper.frame := None; Helper.elementResults := [Example.unset] |}.
    split; [|reflexivity]. vm_compute. right. left. }
  split; [reflexivity|]. split; [reflexivity|]. split; [exact Hnull|].
  destruct (@enable_with_results_needs_featureFlagStoreData Example.dependencies
              Example.enableWithResultsNoFlags Example.world _ eq_refl eq_refl eq_refl
              Hnull)
    as (Hout & _ & Hdrawers & _).
  split; [exact Hout|exact Hdrawers].
Defined.

Lemma handler_example :
  (@processRequest Example.dependencies Example.disable Example.world).2 = Normal tt
  ∧ responses
      (calls (@onTriggerVisualization Example.dependencies Example.disable
                (Some "acknowledge") Example.world).1)
    = [("acknowledge", null)]
  ∧ (@onTriggerVisualization Example.dependencies Example.disable None Example.world).2
    = Normal tt.
Proof.
  assert (Hout : (@processRequest Example.dependencies Example.disable Example.world).2
                 = Normal tt) by (vm_compute; reflexivity).
  destruct (@handler_acknowledges_a_processed_request Example.dependencies
              Example.disable Example.world Hout) as [Hsome Hnone].
  split; [exact Hout|]. rewrite Hsome, Hnone. split; vm_compute; reflexivity.
Defined.

Lemma disable_without_prior_enable_example :
  @uninitialized (configId Example.disable) Example.world
  ∧ Forall (fun event =>
              ¬ (isEnabled event.2 = true ∧ configId event.2 = configId Example.disable))
      Example.events
  ∧ isEnabled Example.disable = false
  ∧ _drawers
      (@processRequest Example.dependencies Example.disable
         (with_iframes ["#frame2"]
            (@history Example.dependencies Example.events Example.world))).1
    = _drawers
        (with_iframes ["#frame2"]
           (@history Example.dependencies Example.events Example.world)).
Proof.
  assert (Hstart : @uninitialized (configId Example.disable) Example.world).
  { split; [|vm_compute; reflexivity].
    exists {| Drawer.variant := "highlight"; Drawer.config := None; Drawer.overlay := [] |}.
    split; [vm_compute; reflexivity|reflexivity]. }
  assert (Hevents : Forall (fun event =>
             ¬ (isEnabled event.2 = true ∧ configId event.2 = configId Example.disable))
             Example.events).
  { repeat constructor; intros [? ?]; discriminate. }
  split; [exact Hstart|]. split; [exact Hevents|].
  split; [reflexivity|].
  exact (proj1 (proj2 (@disable_without_prior_enable_is_a_no_op Example.dependencies
                         Example.world ["#frame2"] Example.events Example.disable
                         Hstart Hevents eq_refl))).
Defined.

(** *** Where the claims of the specification fail *)

(** An enable request without elementResults for a configId that has no
    drawer: the document has two iframes, yet the request throws at the
    drawer and no message is sent. *)
Lemma enable_without_results_for_an_unknown_configId_reaches_no_iframe :
  isEnabled Cases.enableUnknownWithoutResults = true
  ∧ elementResults Cases.enableUnknownWithoutResults = None
  ∧ iframes Example.world = ["#frame1"; "#frame2"]
  ∧ (@processRequest Example.dependencies Cases.enableUnknownWithoutResults
       Example.world).2
    = Throw (TypeError "drawer.initialize")
  ∧ calls (@processRequest Example.dependencies Cases.enableUnknownWithoutResults
             Example.world).1
    = calls Example.world
  ∧ sentRequests
      (calls (@processRequest Example.dependencies Cases.enableUnknownWithoutResults
                Example.world).1)
    = [].
Proof. split_and!; vm_compute; reflexivity. Qed.

(** An enable request with elementResults that have a partition for the
    current document stops before the drawer is initialized, and so makes
    other calls than those of [scopedEnableCalls], when it carries no
    featureFlagStoreData, and also when its configId has no drawer. *)
Lemma enable_with_results_can_stop_before_drawing :
  (isEnabled Example.enableWithResultsNoFlags = true
   ∧ elementResults Example.enableWithResultsNoFlags = Some [Example.nested; Example.unset]
   ∧ featureFlagStoreData Example.enableWithResultsNoFlags = None
   ∧ @splitResultsByFrame Example.dependencies (iframes Example.world)
       [Example.nested; Example.unset]
     = [{| Helper.frame := Some "#frame1"; Helper.elementResults := [Example.nested] |};
        {| Helper.frame := None; Helper.elementResults := [Example.unset] |}]
   ∧ (@processRequest Example.dependencies Example.enableWithResultsNoFlags Example.world).2
     = Throw (TypeError "this._featureFlagStoreData[...]")
   ∧ initializations
       (calls (@processRequest Example.dependencies
                 Example.enableWithResultsNoFlags Example.world).1)
     = []
   ∧ calls (@processRequest Example.dependencies
              Example.enableWithResultsNoFlags Example.world).1
     ≠ calls Example.world
       ++ concat (map (@scopedEnableCalls Example.dependencies
                         Example.enableWithResultsNoFlags)
                    (@splitResultsByFrame Example.dependencies (iframes Example.world)
                       [Example.nested; Example.unset])))
  ∧ (isEnabled Cases.enableUnknown = true
     ∧ elementResults Cases.enableUnknown
       = Some [Example.nested; Example.unset; Example.shown]
     ∧ featureFlagStoreData Cases.enableUnknown = Some Example.flagsOn
     ∧ _drawers Example.world !! configId Cases.enableUnknown = None
     ∧ (@processRequest Example.dependencies Cases.enableUnknown Example.world).2
       = Throw (TypeError "drawer.initialize")
     ∧ initializations
         (calls (@processRequest Example.dependencies Cases.enableUnknown Example.world).1)
       = []
     ∧ calls (@processRequest Example.dependencies Cases.enableUnknown Example.world).1
       ≠ calls Example.world
         ++ concat (map (@scopedEnableCalls Example.dependencies Cases.enableUnknown)
                      (@splitResultsByFrame Example.dependencies (iframes Example.world)
                         [Example.nested; Example.unset; Example.shown]))).
Proof.
  split; split_and!; try (vm_compute; reflexivity);
    intros Hcalls; apply (f_equal length) in Hcalls; vm_compute in Hcalls;
    discriminate.
Qed.

(** A disable request for a configId that has no drawer, on a controller
    that runs a visibility check for it: the document has two iframes,
    yet the request throws at the drawer, no message is sent, and the
    visibility check is not cleared. *)
Lemma disable_for_an_unknown_configId_reaches_no_iframe :
  let w := (@processRequest Example.dependencies Cases.enableUnknown Example.world).1 in
  isEnabled Cases.disableUnknown = false
  ∧ iframes w = ["#frame1"; "#frame2"]
  ∧ is_Some (intervals w !! "unknown")
  ∧ (@processRequest Example.dependencies Cases.disableUnknown w).2
    = Throw (TypeError "drawer.eraseLayout")
  ∧ calls (@processRequest Example.dependencies Cases.disableUnknown w).1 = calls w
  ∧ is_Some (intervals (@processRequest Example.dependencies Cases.disableUnknown w).1
             !! "unknown").
Proof.
  cbv zeta. split_and!; try (vm_compute; reflexivity); vm_compute; eauto.
Qed.

(** A disable request for a configId that has no drawer and that no
    request has enabled: it throws. *)
Lemma disable_without_prior_enable_raises_for_an_unknown_configId :
  let w := @history Example.dependencies Example.events Example.world in
  Forall (fun event =>
            ¬ (isEnabled event.2 = true ∧ configId event.2 = configId Cases.disableUnknown))
    Example.events
  ∧ isEnabled Cases.disableUnknown = false
  ∧ _drawers w !! configId Cases.disableUnknown = None
  ∧ intervals w !! configId Cases.disableUnknown = None
  ∧ (@processRequest Example.dependencies Cases.disableUnknown w).2
    = Throw (TypeError "drawer.eraseLayout").
Proof.
  cbv zeta. split_and!; try (vm_compute; reflexivity).
  repeat constructor; intros [? ?]; discriminate.
Qed.


(** On a request that throws, the handler throws too and never invokes the
    responder, supplied or not. *)
Lemma handler_does_not_acknowledge_a_failed_request :
  (@onTriggerVisualization Example.dependencies Example.enableWithResultsNoFlags
     (Some "acknowledge") Example.world).2
  = Throw (TypeError "this._featureFlagStoreData[...]")
  ∧ responses
      (calls (@onTriggerVisualization Example.dependencies
                Example.enableWithResultsNoFlags (Some "acknowledge") Example.world).1)
    = []
  ∧ (@onTriggerVisualization Example.dependencies Example.enableWithResultsNoFlags
       None Example.world).2
    = Throw (TypeError "this._featureFlagStoreData[...]").
Proof. split_and!; vm_compute; reflexivity. Qed.

(** * Further properties of the drawing controller *)

Section MoreRequests.
Context `{Dependencies}.

Lemma registered_false (configId : string) (w : World) :
  _drawers w !! configId = None -> registered configId w = false.
Proof.
  intros Hnone. apply bool_decide_eq_false_2. rewrite Hnone. by intros [? ?].
Qed.

Lemma registered_is_Some (configId : string) (w : World) :
  registered configId w = true <-> is_Some (_drawers w !! configId).
Proof. apply bool_decide_eq_true. Qed.

Lemma enableTrace_normal known ff vt configId byFrames :
  (enableTrace known ff vt configId byFrames).2 = Normal tt
  <-> (forall p, p ∈ byFrames -> Helper.frame p = None -> is_Some ff ∧ known = true).
Proof.
  induction byFrames as [|p rest IH].
  - split; [|done]. by intros _ p ?%elem_of_nil.
  - cbn [enableTrace]. destruct (Helper.frame p) eqn:Hp.
    + cbn [snd]. rewrite IH. split.
      * intros Hrest q Hq Hnull.
        apply elem_of_cons in Hq as [->|Hq]; [congruence|by apply (Hrest q)].
      * intros Hall q Hq. apply (Hall q). by right.
    + destruct ff as [flags|].
      * destruct known.
        -- cbn [snd]. rewrite IH. split.
           ++ intros Hrest q Hq Hnull.
              apply elem_of_cons in Hq as [->|Hq]; [by eauto|by apply (Hrest q)].
           ++ intros Hall q Hq. apply (Hall q). by right.
        -- cbn [snd]. split; [done|].
           intros Hall. by destruct (Hall p ltac:(left) Hp).
      * cbn [snd]. split; [done|].
        intros Hall. destruct (Hall p ltac:(left) Hp) as [[? ?] _]. done.
Qed.

(** X1.  When a request completes.  A disable request, and an enable request
    without elementResults, complete normally exactly when the configId has
    a drawer in the registry.  An enable request with elementResults
    completes normally exactly when its results have no partition for the
    current document, or the message has featureFlagStoreData and the
    configId has a drawer: a frame that only forwards needs neither. *)
Theorem processRequest_completes_exactly_when
    (m : VisualizationWindowMessage) (w : World) :
  (processRequest m w).2 = Normal tt
  <-> (if isEnabled m then
         match elementResults m with
         | Some results =>
             forall p, p ∈ splitResultsByFrame (iframes w) results ->
                       Helper.frame p = None ->
                       is_Some (featureFlagStoreData m)
                       ∧ is_Some (_drawers w !! configId m)
         | None => is_Some (_drawers w !! configId m)
         end
       else is_Some (_drawers w !! configId m)).
Proof.
  rewrite processRequest_trace. cbn [snd]. unfold requestTrace.
  destruct (isEnabled m).
  - destruct (elementResults m) as [results|].
    + rewrite enableTrace_normal. by setoid_rewrite registered_is_Some.
    + rewrite <- registered_is_Some. by destruct (registered _ _).
  - rewrite <- registered_is_Some. by destruct (registered _ _).
Qed.

(** X2.  With a configId that has no drawer, a disable request and an enable
    request without elementResults throw at once: no call is made, so no
    iframe is told anything and no visibility check is cleared; only the
    stored feature flags change. *)
Theorem unknown_configId_stops_the_request_at_once
    (m : VisualizationWindowMessage) (w : World) :
  _drawers w !! configId m = None ->
  isEnabled m = false ∨ elementResults m = None ->
  let w' := (processRequest m w).1 in
  (exists e, (processRequest m w).2 = Throw e)
  ∧ calls w' = calls w
  ∧ _drawers w' = _drawers w
  ∧ intervals w' = intervals w.
Proof.
  intros Hnone Hkind. simpl. rewrite processRequest_trace. unfold requestTrace.
  rewrite (registered_false _ _ Hnone).
  destruct (isEnabled m).
  - destruct Hkind as [?| ->]; [done|]. cbn [fst snd]. by eauto.
  - cbn [fst snd]. by eauto.
Qed.

Lemma enableTrace_forwards known ff vt configId
    (pre rest : list Helper.HTMLIFrameResult) :
  Forall (fun q => Helper.frame q ≠ None) pre ->
  let forwarded (q : Helper.HTMLIFrameResult) :=
    sendMessage (createFrameRequestMessage (Helper.frame q)
                   (enableMessage vt configId ff (Some (Helper.elementResults q)))) in
  enableTrace known ff vt configId (pre ++ rest)
  = (map forwarded pre ++ (enableTrace known ff vt configId rest).1,
     (enableTrace known ff vt configId rest).2).
Proof.
  intros Hpre. cbv zeta. induction Hpre as [|q pre Hq _ IH].
  - cbn [app map]. by destruct (enableTrace known ff vt configId rest).
  - cbn [app enableTrace map]. destruct (Helper.frame q); [|done].
    by rewrite IH.
Qed.

(** X3.  An enable request with elementResults whose configId has no drawer
    throws at the first partition of the current document, but only after
    the visibility checker has been called: with the flag set, a visibility
    check is started for a configId for which nothing is drawn.  Before
    that, the iframes of the earlier partitions have been sent their
    results; nothing else is called. *)
Theorem visibility_check_starts_before_the_drawer_is_missed
    (m : VisualizationWindowMessage) (w : World)
    (results : list Helper.AssessmentVisualizationInstance)
    (flags : FeatureFlagStoreData)
    (p : Helper.HTMLIFrameResult) (pre rest : list Helper.HTMLIFrameResult) :
  isEnabled m = true ->
  elementResults m = Some results ->
  featureFlagStoreData m = Some flags ->
  flags !! showInstanceVisibility = Some true ->
  _drawers w !! configId m = None ->
  splitResultsByFrame (iframes w) results = pre ++ p :: rest ->
  Forall (fun q => Helper.frame q ≠ None) pre ->
  Helper.frame p = None ->
  (exists e, (processRequest m w).2 = Throw e)
  ∧ calls (processRequest m w).1
    = calls w
      ++ map (fun q =>
                sendMessage
                  {| command := "insights.draw";
                     frame := Helper.frame q;
                     message := {| visualizationType := visualizationType m;
                                   isEnabled := true;
                                   configId := configId m;
                                   elementResults := Some (Helper.elementResults q);
                                   featureFlagStoreData := Some flags |} |}) pre
      ++ [createVisibilityCheckerInterval (configId m) (visualizationType m)
            (Helper.elementResults p)].
Proof.
  intros Hen Hres Hff Hflag Hnone Hsplit Hpre Hp.
  rewrite processRequest_trace. unfold requestTrace.
  rewrite Hen, Hres, Hff, Hsplit, (registered_false _ _ Hnone).
  rewrite (enableTrace_forwards _ _ _ _ pre (p :: rest) Hpre).
  cbn [enableTrace]. rewrite Hp. unfold trackingCalls. rewrite Hflag. cbn [fst snd].
  split; [by eauto|]. by rewrite replay_calls.
Qed.

(** X4.  A frame that only forwards.  When no partition of the results is
    for the current document, an enable request completes normally whatever
    the registry and the feature flags are: it sends one message per
    partition, each to the partition's iframe with the partition's results,
    and touches no drawer and no interval. *)
Theorem enable_with_results_for_iframes_only_just_forwards
    (m : VisualizationWindowMessage) (w : World)
    (results : list Helper.AssessmentVisualizationInstance) :
  isEnabled m = true ->
  elementResults m = Some results ->
  Forall (fun p => Helper.frame p ≠ None) (splitResultsByFrame (iframes w) results) ->
  let w' := (processRequest m w).1 in
  (processRequest m w).2 = Normal tt
  ∧ calls w'
    = calls w
      ++ map (fun p =>
                sendMessage
                  {| command := "insights.draw";
                     frame := Helper.frame p;
                     message := {| visualizationType := visualizationType m;
                                   isEnabled := true;
                                   configId := configId m;
                                   elementResults := Some (Helper.elementResults p);
                                   featureFlagStoreData := featureFlagStoreData m |} |})
           (splitResultsByFrame (iframes w) results)
  ∧ _drawers w' = _drawers w
  ∧ intervals w' = intervals w.
Proof.
  intros Hen Hres Hall. simpl. rewrite processRequest_trace. unfold requestTrace.
  rewrite Hen, Hres.
  pose proof (enableTrace_forwards (registered (configId m) w) (featureFlagStoreData m)
                (visualizationType m) (configId m) _ [] Hall) as Htrace.
  cbv zeta in Htrace. rewrite !app_nil_r in Htrace. rewrite Htrace. cbn [fst snd].
  split_and!.
  - done.
  - by rewrite replay_calls.
  - rewrite replay_drawers_none; [done|]. apply Forall_fmap, Forall_true. done.
  - rewrite replay_intervals_none; [done|]. apply Forall_fmap, Forall_true. done.
Qed.

Lemma enableTrace_own known ff vt configId byFrames :
  Forall (fun c =>
            match c with
            | drawerInitialize d _ | drawerDrawLayout d | drawerEraseLayout d =>
                d = configId
            | createVisibilityCheckerInterval id t _ | clearVisibilityCheck id t =>
                id = configId ∧ t = vt
            | sendMessage _ => True
            | subscribe _ _ | respond _ _ => False
            end)
    (enableTrace known ff vt configId byFrames).1.
Proof.
  induction byFrames as [|p rest IH]; [by constructor|].
  cbn [enableTrace]. destruct (Helper.frame p).
  - by constructor.
  - destruct ff as [flags|]; [|by constructor].
    assert (Htrack : Forall (fun c =>
              match c with
              | drawerInitialize d _ | drawerDrawLayout d | drawerEraseLayout d =>
                  d = configId
              | createVisibilityCheckerInterval id t _ | clearVisibilityCheck id t =>
                  id = configId ∧ t = vt
              | sendMessage _ => True
              | subscribe _ _ | respond _ _ => False
              end) (trackingCalls vt configId flags (Helper.elementResults p))).
    { unfold trackingCalls.
      destruct (flags !! showInstanceVisibility) as [[]|]; by repeat constructor. }
    destruct known; [|done]. cbn [fst].
    apply Forall_app; split; [done|].
    apply Forall_app; split; [|done]. by repeat constructor.
Qed.

(** X5.  A request calls for its own configId only: every drawer call is on
    the drawer stored under the request's configId, every call of the
    visibility checker names that configId and the request's
    visualizationType, and a request never subscribes and never invokes a
    responder. *)
Theorem processRequest_calls_are_for_its_configId
    (m : VisualizationWindowMessage) (w : World) :
  exists made,
    calls (processRequest m w).1 = calls w ++ made
    ∧ forall c, c ∈ made ->
        match c with
        | drawerInitialize d _ | drawerDrawLayout d | drawerEraseLayout d =>
            d = configId m
        | createVisibilityCheckerInterval id t _ | clearVisibilityCheck id t =>
            id = configId m ∧ t = visualizationType m
        | sendMessage _ => True
        | subscribe _ _ | respond _ _ => False
        end.
Proof.
  exists (requestTrace m w).1. split.
  { rewrite processRequest_trace. cbn [fst]. by rewrite replay_calls. }
  apply Forall_forall. unfold requestTrace. destruct (isEnabled m).
  - destruct (elementResults m).
    + apply enableTrace_own.
    + destruct (registered _ _); [|by constructor]. cbn [fst].
      apply Forall_app; split; [by repeat constructor|].
      apply Forall_fmap, Forall_true. done.
  - destruct (registered _ _); [|by constructor]. cbn [fst].
    constructor; [done|].
    apply Forall_app; split; [|by repeat constructor].
    apply Forall_fmap, Forall_true. done.
Qed.

Lemma enableTrace_sent known ff vt configId byFrames :
  Forall (fun r => command r = "insights.draw"
                   ∧ is_Some (frame r)
                   ∧ DrawingController.configId (message r) = configId
                   ∧ visualizationType (message r) = vt
                   ∧ isEnabled (message r) = true
                   ∧ featureFlagStoreData (message r) = ff
                   ∧ is_Some (elementResults (message r)))
    (sentRequests (enableTrace known ff vt configId byFrames).1).
Proof.
  induction byFrames as [|p rest IH]; [by constructor|].
  cbn [enableTrace]. destruct (Helper.frame p) as [iframe|].
  - cbn [fst]. constructor; [|done]. simpl. eauto 10.
  - destruct ff as [flags|]; [|by constructor].
    assert (Htrack : forall results,
               sentRequests (trackingCalls vt configId flags results) = []).
    { intros results. unfold trackingCalls.
      by destruct (flags !! showInstanceVisibility) as [[]|]. }
    destruct known; cbn [fst]; unfold sentRequests in *.
    + rewrite !omap_app. rewrite Htrack. done.
    + by rewrite Htrack.
Qed.

(** X6.  What is forwarded.  Every message a request sends goes to an iframe
    (never to [undefined]) under the command "insights.draw" and repeats the
    request's configId, visualizationType and isEnabled.  An enable message
    repeats the request's feature flags and carries elementResults exactly
    when the request did; a disable message carries neither. *)
Theorem forwarded_messages_repeat_the_request
    (m : VisualizationWindowMessage) (w : World) :
  exists made,
    calls (processRequest m w).1 = calls w ++ made
    ∧ forall r, r ∈ sentRequests made ->
        command r = "insights.draw"
        ∧ is_Some (frame r)
        ∧ configId (message r) = configId m
        ∧ visualizationType (message r) = visualizationType m
        ∧ isEnabled (message r) = isEnabled m
        ∧ featureFlagStoreData (message r)
          = (if isEnabled m then featureFlagStoreData m else None)
        ∧ (is_Some (elementResults (message r))
           <-> isEnabled m = true ∧ is_Some (elementResults m)).
Proof.
  exists (requestTrace m w).1. split.
  { rewrite processRequest_trace. cbn [fst]. by rewrite replay_calls. }
  unfold requestTrace. destruct (isEnabled m) eqn:Hen.
  - destruct (elementResults m) as [results|] eqn:Hres.
    + intros r Hr.
      pose proof (enableTrace_sent (registered (configId m) w) (featureFlagStoreData m)
                    (visualizationType m) (configId m)
                    (splitResultsByFrame (iframes w) results)) as Hall.
      rewrite Forall_forall in Hall.
      destruct (Hall r Hr) as (? & ? & ? & ? & ? & ? & ?).
      split_and!; by eauto.
    + destruct (registered _ _); cbn [fst]; [|by intros r ?%elem_of_nil].
      change (sentRequests (drawCalls ?c ?f ?r ++ ?l)) with (sentRequests l).
      rewrite sentRequests_sends. intros r (iframe & -> & _)%list_elem_of_fmap.
      simpl. split_and!; try by eauto.
      split; [by intros [? ?]|by intros [_ [? ?]]].
  - destruct (registered _ _); cbn [fst]; [|by intros r ?%elem_of_nil].
    change (sentRequests (?c :: ?l)) with (sentRequests l).
    unfold sentRequests. rewrite omap_app. cbn [omap list_omap]. rewrite app_nil_r.
    fold (sentRequests (map (fun iframe =>
            sendMessage (createFrameRequestMessage (Some iframe)
              (disableMessage (visualizationType m) (configId m)))) (iframes w))).
    rewrite sentRequests_sends. intros r (iframe & -> & _)%list_elem_of_fmap.
    simpl. split_and!; try by eauto.
    split; [by intros [? ?]|by intros [? _]].
Qed.

End MoreRequests.

Section MoreController.
Context `{Dependencies}.

(** X7.  The subscribed handler ends as [processRequest] does, with the same
    exception if it throws; the only call it adds is the acknowledgement,
    made once, with [null], after a request that completed and only when a
    responder was supplied. *)
Theorem handler_ends_as_the_request_does
    (m : VisualizationWindowMessage) (responder : option string) (w : World) :
  let processed := processRequest m w in
  let handled := onTriggerVisualization m responder w in
  handled.2 = processed.2
  ∧ calls handled.1
    = calls processed.1
      ++ match processed.2, responder with
         | Normal _, Some f => [respond f null]
         | _, _ => []
         end
  ∧ _drawers handled.1 = _drawers processed.1
  ∧ intervals handled.1 = intervals processed.1.
Proof.
  simpl. unfold onTriggerVisualization. rewrite bind_run.
  destruct (processRequest m w) as [w' [[]|e]]; cbn [fst snd].
  - destruct responder as [f|]; cbn [invokeMethodIfExists].
    + by rewrite call_run.
    + unfold mret, Js_ret. cbn [fst snd]. by rewrite app_nil_r.
  - by rewrite app_nil_r.
Qed.

(** X8.  [getInitialElements] only removes instances: what it returns is a
    sublist of what it is given, in the same order, and it has nothing more
    to remove from its own result. *)
Theorem getInitialElements_only_removes
    (results : list Helper.AssessmentVisualizationInstance) :
  exists kept,
    getInitialElements (Some results) = Some kept
    ∧ kept `sublist_of` results
    ∧ getInitialElements (Some kept) = Some kept
    ∧ (forall x, x ∈ results -> x ∉ kept ->
         Helper.isVisible x = Some false ∨ Helper.isVisualizationEnabled x = Some false).
Proof.
  eexists. split; [reflexivity|]. split_and!.
  - apply sublist_filter.
  - unfold getInitialElements. f_equal. by rewrite list_filter_filter_l.
  - intros x Hin Hout. rewrite list_elem_of_filter in Hout.
    destruct (decide (Helper.isVisible x = Some false)) as [?|Hv]; [by left|].
    destruct (decide (Helper.isVisualizationEnabled x = Some false)) as [?|He]; [by right|].
    exfalso. apply Hout. split; [|done].
    by rewrite andb_true_iff, !negb_true_iff, !bool_decide_eq_false.
Qed.

(** X9.  [initialize()] on any controller, not only a new one: its one
    call subscribes the handler under "insights.draw", and no drawer is told
    to erase; under every configured identifier the registry then holds a
    newly built drawer, whatever drawer was there and whatever it had drawn,
    and the other entries stay. *)
Theorem initialize_replaces_the_configured_drawers (w : World) :
  let w' := (initialize w).1 in
  (initialize w).2 = Normal tt
  ∧ calls w' = calls w ++ [subscribe "insights.draw" onTriggerVisualizationHandler]
  ∧ _drawers w' = list_to_map (reverse configuredDrawers) ∪ _drawers w
  ∧ intervals w' = intervals w.
Proof.
  simpl. rewrite initialize_run. cbn [fst snd].
  set (w1 := record _ (with_subscriptions _ w)).
  pose proof (assignAll_frame configuredDrawers w1) as Hframe. cbv zeta in Hframe.
  destruct Hframe as (Hcalls & Hintervals & _).
  split_and!.
  - done.
  - by rewrite Hcalls.
  - rewrite assignAll_drawers, insert_all_foldr. apply foldr_insert_union.
  - by rewrite Hintervals.
Qed.

Lemma insert_all_keeps {A} (entries : list (string * A)) (m : gmap string A)
    (id : string) (x : A) :
  m !! id = Some x -> id ∉ entries.*1 ->
  foldl (fun m e => <[e.1 := e.2]> m) m entries !! id = Some x.
Proof.
  revert m. induction entries as [|[k y] entries IH]; intros m Hm Hnot; [done|].
  cbn [foldl fst snd]. apply IH.
  - rewrite lookup_insert_ne; [done|]. intros ->. apply Hnot.
    cbn [fmap list_fmap fst]. by left.
  - intros Hin. apply Hnot. cbn [fmap list_fmap fst]. by right.
Qed.

(** X10.  When two configured entries have the same identifier, the one
    enumerated last is the one the registry holds. *)
Theorem last_configured_drawer_wins (w : World)
    (before after : list (string * Drawer.Drawer)) (id : string) (d : Drawer.Drawer) :
  configuredDrawers = before ++ (id, d) :: after ->
  id ∉ after.*1 ->
  _drawers (initialize w).1 !! id = Some d.
Proof.
  intros Hentries Hlast. rewrite initialize_run. cbn [fst].
  rewrite assignAll_drawers, Hentries, foldl_app. cbn [foldl fst snd].
  apply insert_all_keeps; [apply lookup_insert_eq|done].
Qed.

End MoreController.

(** ** The further properties on the cases *)

Lemma unknown_is_not_registered : _drawers Example.world !! "unknown" = None.
Proof. vm_compute. reflexivity. Defined.

Lemma unknown_configId_example :
  _drawers Example.world !! configId Cases.disableUnknown = None
  ∧ isEnabled Cases.disableUnknown = false
  ∧ calls (@processRequest Example.dependencies Cases.disableUnknown Example.world).1
    = calls Example.world.
Proof.
  split; [exact unknown_is_not_registered|]. split; [reflexivity|].
  exact (proj1 (proj2 (@unknown_configId_stops_the_request_at_once Example.dependencies
                         Cases.disableUnknown Example.world unknown_is_not_registered
                         (or_introl eq_refl)))).
Defined.

Lemma visibility_check_example :
  featureFlagStoreData Cases.enableUnknown = Some Example.flagsOn
  ∧ Example.flagsOn !! "showInstanceVisibility" = Some true
  ∧ _drawers Example.world !! configId Cases.enableUnknown = None
  ∧ HtmlElementAxeResultsHelper.splitResultsByFrame (iframes Example.world)
      [Example.nested; Example.unset; Example.shown]
    = [{| Helper.frame := Some "#frame1"; Helper.elementResults := [Example.nested] |}]
      ++ {| Helper.frame := None;
            Helper.elementResults := [Example.unset; Example.shown] |} :: []
  ∧ exists e,
      (@processRequest Example.dependencies Cases.enableUnknown Example.world).2 = Throw e.
Proof.
  assert (Hflag : Example.flagsOn !! "showInstanceVisibility" = Some true)
    by (vm_compute; reflexivity).
  assert (Hsplit : HtmlElementAxeResultsHelper.splitResultsByFrame (iframes Example.world)
             [Example.nested; Example.unset; Example.shown]
           = [{| Helper.frame := Some "#frame1"; Helper.elementResults := [Example.nested] |}]
             ++ {| Helper.frame := None;
                   Helper.elementResults := [Example.unset; Example.shown] |} :: [])
    by (vm_compute; reflexivity).
  split; [reflexivity|]. split; [exact Hflag|].
  split; [exact unknown_is_not_registered|]. split; [exact Hsplit|].
  refine (proj1 (@visibility_check_starts_before_the_drawer_is_missed
                   Example.dependencies Cases.enableUnknown Example.world
                   _ _ _ _ _ eq_refl eq_refl eq_refl Hflag
                   unknown_is_not_registered Hsplit _ eq_refl)).
  repeat constructor; discriminate.
Defined.

Lemma forwarding_example :
  isEnabled Cases.enableNestedOnly = true
  ∧ Forall (fun p => Helper.frame p ≠ None)
      (HtmlElementAxeResultsHelper.splitResultsByFrame (iframes Example.world)
         [Example.nested])
  ∧ (@processRequest Example.dependencies Cases.enableNestedOnly Example.world).2
    = Normal tt.
Proof.
  assert (Hall : Forall (fun p => Helper.frame p ≠ None)
             (HtmlElementAxeResultsHelper.splitResultsByFrame (iframes Example.world)
                [Example.nested])).
  { vm_compute. repeat constructor; discriminate. }
  split; [reflexivity|]. split; [exact Hall|].
  exact (proj1 (@enable_with_results_for_iframes_only_just_forwards
                  Example.dependencies Cases.enableNestedOnly Example.world
                  _ eq_refl eq_refl Hall)).
Defined.

Lemma last_configured_drawer_example :
  @configuredDrawers Cases.clashing
  = [("same", @drawerProvider Cases.clashing "first")]
    ++ ("same", @drawerProvider Cases.clashing "second") :: []
  ∧ _drawers (@initialize Cases.clashing (constructed [])).1 !! "same"
    = Some (@drawerProvider Cases.clashing "second").
Proof.
  assert (Hentries : @configuredDrawers Cases.clashing
             = [("same", @drawerProvider Cases.clashing "first")]
               ++ ("same", @drawerProvider Cases.clashing "second") :: [])
    by reflexivity.
  split; [exact Hentries|].
  refine (@last_configured_drawer_wins Cases.clashing (constructed []) _ _ _ _
            Hentries _).
  intros Hin. by apply elem_of_nil in Hin.
Defined.

(** * The details column of a headings instance *)

Section Headings.
Import HeadingsColumn.

Lemma heading_label_is_not_NA (level : Level) : "H" +:+ toString level ≠ "N/A".
Proof. discriminate. Qed.

(** X11.  The column is marked "not-applicable" exactly when the instance
    has no heading level (no property bag, or a bag without one), and then
    it is labelled "N/A" on the default grey.  The label is "N/A" exactly
    when the level is missing or falsy: a level that is present but falsy
    (the empty string, zero) is labelled "N/A" without the mark. *)
Theorem not_applicable_mark_and_label
    (headingStyles : gmap string HeadingStyleConfiguration)
    (item : AssessmentInstanceRowData) :
  let column := headingsAssessmentInstanceDetailsColumnRenderer headingStyles item in
  (customClassName column = Some "not-applicable" <-> levelOf item = None)
  ∧ (customClassName column = Some "not-applicable" ->
       labelText column = "N/A" ∧ background column = "#767676")
  ∧ (labelText column = "N/A"
       <-> levelOf item = None ∨ exists level, levelOf item = Some level ∧ truthy level = false)
  ∧ tooltipId column = None.
Proof.
  unfold headingsAssessmentInstanceDetailsColumnRenderer, levelOf.
  destruct (propertyBag (instance item)) as [[text [level|]]|];
    cbn [customClassName labelText background tooltipId headingLevel].
  - split_and!.
    + split; discriminate.
    + discriminate.
    + destruct (truthy level) eqn:Ht.
      * split; [intros Hl; by apply heading_label_is_not_NA in Hl|].
        intros [?|(l & [= <-] & ?)]; congruence.
      * split; [by eauto|done].
    + done.
  - split_and!; try done. split; [by left|done].
  - split_and!; try done. split; [by left|done].
Qed.

End Headings.

(** * The issues table *)

Section Strings.
Import JsString.

Lemma append_cons (c : ascii) (s t : string) : String c s +:+ t = String c (s +:+ t).
Proof. reflexivity. Qed.

Lemma append_nil_r (s : string) : s +:+ "" = s.
Proof. induction s as [|c s IH]; [done|]. rewrite append_cons. by f_equal. Qed.

Lemma append_assoc (s1 s2 s3 : string) : (s1 +:+ s2) +:+ s3 = s1 +:+ s2 +:+ s3.
Proof. induction s1 as [|c s1 IH]; [done|]. rewrite !append_cons. by f_equal. Qed.

Lemma chars_append (s1 s2 : string) : chars (s1 +:+ s2) = chars s1 ++ chars s2.
Proof.
  induction s1 as [|c s1 IH]; [done|]. rewrite append_cons. cbn [chars app]. by f_equal.
Qed.

Lemma prefix_dropChars (pattern s : string) :
  String.prefix pattern s = true -> s = pattern +:+ dropChars (String.length pattern) s.
Proof.
  revert s. induction pattern as [|c pattern IH]; intros s; [done|].
  destruct s as [|d s]; [done|]. cbn [String.prefix String.length dropChars].
  destruct (ascii_dec c d) as [->|]; [|done].
  intros Hp. rewrite append_cons. f_equal. by apply IH.
Qed.

Lemma splitAtFirst_sound (pattern s before after : string) :
  splitAtFirst pattern s = Some (before, after) -> s = before +:+ pattern +:+ after.
Proof.
  revert before. induction s as [|c s IH]; intros before.
  - cbn [splitAtFirst]. destruct (String.prefix pattern "") eqn:Hp; [|done].
    intros [= <- <-]. by apply prefix_dropChars.
  - cbn [splitAtFirst]. destruct (String.prefix pattern (String c s)) eqn:Hp.
    + intros [= <- <-]. by apply prefix_dropChars.
    + destruct (splitAtFirst pattern s) as [[b a]|]; [|done].
      intros [= <- <-]. rewrite append_cons. f_equal. by apply IH.
Qed.

Lemma getSubstitution_plain (matched before after replacement : string) :
  "$"%char ∉ chars replacement ->
  getSubstitution matched before after replacement = replacement.
Proof.
  induction replacement as [|c r IH]; [done|].
  intros Hnot. cbn [getSubstitution chars] in *.
  destruct (Ascii.eqb c "$") eqn:Hc.
  - apply Ascii.eqb_eq in Hc as ->. exfalso. apply Hnot. left.
  - rewrite IH; [done|]. intros Hin. apply Hnot. by right.
Qed.

Lemma entity_chars (c : ascii) (e : string) :
  entity c = Some e ->
  Forall (fun d => d ∉ ["<"; ">"; "034"; "'"; "$"]%char) (chars e).
Proof.
  unfold entity.
  repeat (match goal with |- context [Ascii.eqb c ?x] => destruct (Ascii.eqb c x) end);
    intros [= <-]; cbn [chars];
    repeat constructor; intros Hin;
    repeat (apply elem_of_cons in Hin as [Hin|Hin]; [discriminate|]);
    by apply elem_of_nil in Hin.
Qed.

Lemma entity_none (c : ascii) :
  entity c = None -> c ∉ ["<"; ">"; "034"; "'"]%char.
Proof.
  unfold entity. intros He Hin.
  repeat (apply elem_of_cons in Hin as [->|Hin]; [discriminate|]).
  by apply elem_of_nil in Hin.
Qed.

Lemma escape_chars (value : string) :
  Forall (fun d => d ∉ ["<"; ">"; "034"; "'"]%char) (chars (escape value))
  ∧ ("$"%char ∉ chars value -> "$"%char ∉ chars (escape value)).
Proof.
  induction value as [|c value [IHsafe IHdollar]]; [split; [constructor|done]|].
  cbn [escape]. rewrite chars_append. destruct (entity c) as [e|] eqn:He; cbn [default].
  - pose proof (entity_chars c e He) as Hall. split.
    + apply Forall_app. split; [|done].
      eapply Forall_impl; [exact Hall|]. intros d Hd Hin. apply Hd.
      repeat (apply elem_of_cons in Hin as [->|Hin];
              [by repeat (first [left|right; left|right; right; left
                                 |right; right; right; left])|]).
      by apply elem_of_nil in Hin.
    + intros Hnot Hin. apply elem_of_app in Hin as [Hin|Hin].
      * rewrite Forall_forall in Hall. apply (Hall _ Hin).
        do 4 right. left.
      * apply IHdollar; [|done]. intros ?. apply Hnot. cbn [chars]. by right.
  - split.
    + cbn [chars app]. constructor; [by apply entity_none|done].
    + intros Hnot Hin. cbn [chars app] in *.
      apply elem_of_cons in Hin as [<-|Hin]; [apply Hnot; left|].
      apply IHdollar; [|done]. intros ?. apply Hnot. by right.
Qed.

End Strings.

Section IssuesTableProperties.
Import IssuesTable.

(** X13.  What the content shows.  The export button is rendered exactly
    when issues are enabled and no scan is running, and the details list
    exactly when, in addition, the violations are there: wherever the list
    is, the button is, and the button is also rendered beside the
    "Loading data..." spinner.  The toggle and the export dialog are
    rendered exactly when the enabled state is known. *)
Theorem export_button_and_details_list (this : Component) :
  let content := renderContent this in
  let enabled := issuesEnabled (props this) in
  let known := if enabled is Some _ then 1 else 0 in
  countTag "ActionButton" content
    = (if bool_decide (enabled = Some true ∧ scanning (props this) = false) then 1 else 0)
  ∧ countTag "IssuesDetailsList" content
    = (if bool_decide (enabled = Some true ∧ scanning (props this) = false
                       ∧ is_Some (violations (props this)))
       then 1 else 0)
  ∧ countTag "IssuesDetailsList" content <= countTag "ActionButton" content
  ∧ countTag "VisualizationToggle" content = known
  ∧ countTag "ExportDialog" content = known.
Proof.
  destruct this as [p st cfg]. cbn [props]. unfold renderContent, renderComponent,
    renderCommandBar, renderExportButton. cbn [props].
  destruct (issuesEnabled p) as [[]|]; destruct (scanning p);
    destruct (violations p) as [present|]; vm_compute; repeat split; lia.
Qed.

(** X14.  The content has one body: exactly one of a spinner, the details
    list and the message that the test is turned off; never two spinners. *)
Theorem content_has_one_body (this : Component) :
  let content := renderContent this in
  countTag "Spinner" content + countTag "IssuesDetailsList" content
    + countTag "Markup.Term" content = 1.
Proof.
  destruct this as [p st cfg]. unfold renderContent, renderComponent,
    renderCommandBar, renderExportButton. cbn [props].
  destruct (issuesEnabled p) as [[]|]; destruct (scanning p);
    destruct (violations p) as [present|]; vm_compute; reflexivity.
Qed.

Lemma describe_keeps (values : list string) (this : Component) :
  exportDataWithPlaceholder (state (describe values this))
  = exportDataWithPlaceholder (state this)
  ∧ isExportDialogOpen (state (describe values this)) = isExportDialogOpen (state this)
  ∧ exportName (state (describe values this)) = exportName (state this).
Proof.
  unfold describe. revert this.
  induction values as [|v values IH]; intros this; [done|].
  cbn [foldl]. destruct (IH (onExportDescriptionChange v this)) as (-> & -> & ->).
  done.
Qed.

(** X15.  The export flow.  When the generated report has the placeholder,
    a click on the export button opens the dialog on the report with the
    first placeholder taken out; after any changes of the description, the
    last of them, if it has no dollar sign, stands escaped where that
    placeholder was, with what is before and after as generated: earlier
    descriptions leave no trace, and the description brings in none of the
    characters that open or close a tag or an attribute value. *)
Theorem description_is_inserted_escaped (this : Component)
    (values : list string) (value before after : string) :
  JsString.splitAtFirst descriptionPlaceholder (generatedReport this)
    = Some (before, after) ->
  "$"%char ∉ JsString.chars value ->
  let opened := onExportButtonClick this in
  let final := onExportDescriptionChange value (describe values opened) in
  generatedReport this = before +:+ descriptionPlaceholder +:+ after
  ∧ exportData (state opened) = before +:+ after
  ∧ exportDescription (state opened) = ""
  ∧ exportData (state final) = before +:+ JsString.escape value +:+ after
  ∧ exportDescription (state final) = value
  ∧ isExportDialogOpen (state final) = true
  ∧ Forall (fun c => c ∉ ["<"; ">"; "034"; "'"]%char)
      (JsString.chars (JsString.escape value)).
Proof.
  intros Hsplit Hplain opened final.
  destruct (describe_keeps values opened) as (Hwith & Hopen & _).
  destruct (escape_chars value) as [Hsafe Hdollar].
  split_and!.
  - by apply splitAtFirst_sound.
  - unfold opened, onExportButtonClick. cbn [state withState exportData].
    fold (generatedReport this). unfold JsString.replace. by rewrite Hsplit.
  - done.
  - unfold final, onExportDescriptionChange. cbn [state withState exportData].
    rewrite Hwith. unfold opened, onExportButtonClick.
    cbn [state withState exportDataWithPlaceholder].
    fold (generatedReport this). unfold JsString.replace. rewrite Hsplit.
    by rewrite getSubstitution_plain by by apply Hdollar.
  - done.
  - unfold final, onExportDescriptionChange. cbn [state withState isExportDialogOpen].
    by rewrite Hopen.
  - done.
Qed.

(** X16.  When the generated report has no placeholder, no description ever
    reaches the exported data: it stays the report as generated. *)
Theorem description_is_lost_without_placeholder (this : Component)
    (values : list string) :
  JsString.splitAtFirst descriptionPlaceholder (generatedReport this) = None ->
  exportData (state (describe values (onExportButtonClick this))) = generatedReport this.
Proof.
  intros Hsplit.
  assert (Hclick : exportData (state (onExportButtonClick this)) = generatedReport this).
  { unfold onExportButtonClick. cbn [state withState exportData].
    fold (generatedReport this). unfold JsString.replace. by rewrite Hsplit. }
  destruct values as [|v values _] using rev_ind; [done|].
  unfold describe. rewrite foldl_app. cbn [foldl].
  fold (describe values (onExportButtonClick this)).
  unfold onExportDescriptionChange at 1. cbn [state withState exportData].
  destruct (describe_keeps values (onExportButtonClick this)) as (-> & _ & _).
  unfold onExportButtonClick. cbn [state withState exportDataWithPlaceholder].
  fold (generatedReport this). unfold JsString.replace. by rewrite Hsplit.
Qed.

End IssuesTableProperties.

Lemma description_example :
  JsString.splitAtFirst IssuesTable.descriptionPlaceholder
    (IssuesTable.generatedReport IssuesTableCases.table)
  = Some ("<h1>Home</h1><p>", "</p>")
  ∧ ("$"%char ∉ JsString.chars IssuesTableCases.markup)
  ∧ IssuesTable.exportData
      (IssuesTable.state
         (IssuesTable.onExportDescriptionChange IssuesTableCases.markup
            (IssuesTable.describe ["first"; "second"]
               (IssuesTable.onExportButtonClick IssuesTableCases.table))))
    = "<h1>Home</h1><p>&lt;b&gt;R&amp;D&lt;/b&gt;</p>".
Proof.
  assert (Hsplit : JsString.splitAtFirst IssuesTable.descriptionPlaceholder
                     (IssuesTable.generatedReport IssuesTableCases.table)
                   = Some ("<h1>Home</h1><p>", "</p>")) by (vm_compute; reflexivity).
  assert (Hplain : "$"%char ∉ JsString.chars IssuesTableCases.markup).
  { vm_compute. intros Hin.
    repeat (apply elem_of_cons in Hin as [Hin|Hin]; [discriminate|]).
    by apply elem_of_nil in Hin. }
  split; [exact Hsplit|]. split; [exact Hplain|].
  destruct (description_is_inserted_escaped IssuesTableCases.table ["first"; "second"]
              IssuesTableCases.markup _ _ Hsplit Hplain)
    as (_ & _ & _ & Hdata & _).
  rewrite Hdata. vm_compute. reflexivity.
Defined.

Lemma lost_description_example :
  JsString.splitAtFirst IssuesTable.descriptionPlaceholder
    (IssuesTable.generatedReport IssuesTableCases.silentTable) = None
  ∧ IssuesTable.exportData
      (IssuesTable.state
         (IssuesTable.describe ["first"]
            (IssuesTable.onExportButtonClick IssuesTableCases.silentTable)))
    = "<p></p>".
Proof.
  assert (Hsplit : JsString.splitAtFirst IssuesTable.descriptionPlaceholder
                     (IssuesTable.generatedReport IssuesTableCases.silentTable) = None)
    by (vm_compute; reflexivity).
  split; [exact Hsplit|].
  rewrite (description_is_lost_without_placeholder IssuesTableCases.silentTable
             ["first"] Hsplit).
  vm_compute. reflexivity.
Defined.

(** * The end-to-end page *)

Section PageProperties.
Import Page.
Context `{Browser}.

Ltac run_requests :=
  repeat (cbn beta iota zeta;
          match goal with
          | |- context [answer ?made ?r] => destruct (answer made r)
          | |- context [isClosed ?made] => destruct (isClosed made)
          end);
  cbn beta iota zeta.

(** X17.  Screenshots are for failures only.  Whatever the browser answers,
    a method only adds to the requests made, takes no screenshot when it
    returns a value, and takes at most two when it throws. *)
Theorem screenshots_are_taken_on_failure_only (m : Method) (made : list Request) :
  exists added,
    (run m made).1 = made ++ added
    ∧ (forall value, (run m made).2 = inr value -> screenshots added = 0)
    ∧ screenshots added <= 2.
Proof.
  destruct m as [url|[]| |fn args|sel prop|sel|sel|sel|xp|key];
    unfold run, goto, close, bringToFront, getMatchingElements, clickSelector,
      clickSelectorXPath, waitForSelectorToDisappear, keyPress;
    unfold evaluate, waitForSelector, screenshotOnError, await, request, resolve;
    cbn [andb]; run_requests; cbn [fst snd]; rewrite <- ?app_assoc;
    (eexists; split; [try reflexivity; symmetry; apply app_nil_r|]);
    (split; [try discriminate; intros _ _; vm_compute; reflexivity
            |vm_compute; lia]).
Qed.

(** X18.  A failed evaluation inside [getMatchingElements] is photographed
    twice, once by [evaluate] and once more by the method itself, whatever
    the screenshots answer; when both succeed the caller gets the error of
    the evaluation. *)
Theorem getMatchingElements_takes_two_screenshots
    (selector elementProperty error : string) (made : list Request) :
  let evaluation := pageEvaluate "querySelectorAll" [selector; elementProperty] in
  answer made evaluation = inl error ->
  (getMatchingElements selector elementProperty made).1
  = made ++ [evaluation; takeScreenshot; takeScreenshot]
  ∧ ((exists v, answer (made ++ [evaluation]) takeScreenshot = inr v) ->
     (exists v, answer (made ++ [evaluation; takeScreenshot]) takeScreenshot = inr v) ->
     (getMatchingElements selector elementProperty made).2 = inl error).
Proof.
  intros evaluation Herror.
  unfold getMatchingElements, evaluate, screenshotOnError, request.
  fold evaluation. rewrite Herror.
  replace ((made ++ [evaluation]) ++ [takeScreenshot])
    with (made ++ [evaluation; takeScreenshot]) by by rewrite <- app_assoc.
  destruct (answer (made ++ [evaluation]) takeScreenshot) as [e1|v1];
    destruct (answer (made ++ [evaluation; takeScreenshot]) takeScreenshot) as [e2|v2];
    cbn [fst snd]; rewrite <- ?app_assoc; cbn [app]; (split; [done|]);
    intros [? ?] [? ?]; by simplify_eq.
Qed.

(** X19.  [clickSelector] clicks only what it has waited for: when the wait
    fails nothing is clicked, one screenshot is taken and the method throws;
    when the wait gives an element, the click is on that element. *)
Theorem clickSelector_clicks_what_it_waited_for (selector : string) (made : list Request) :
  let waited := made ++ [pageWaitForSelector selector] in
  match answer made (pageWaitForSelector selector) with
  | inl error =>
      (clickSelector selector made).1 = waited ++ [takeScreenshot]
      ∧ exists thrown, (clickSelector selector made).2 = inl thrown
  | inr element =>
      exists after,
        (clickSelector selector made).1 = waited ++ elementClick element :: after
        ∧ forall other, elementClick other ∉ after
  end.
Proof.
  unfold clickSelector, waitForSelector, await, screenshotOnError, request.
  destruct (answer made (pageWaitForSelector selector)) as [error|element].
  - destruct (answer (made ++ [pageWaitForSelector selector]) takeScreenshot);
      cbn [fst snd]; by eauto.
  - destruct (answer (made ++ [pageWaitForSelector selector]) (elementClick element)).
    + destruct (answer ((made ++ [pageWaitForSelector selector]) ++ [elementClick element])
                  takeScreenshot);
        cbn [fst snd]; exists [takeScreenshot]; rewrite <- !app_assoc;
        (split; [done|]); intros other Hin;
        apply list_elem_of_singleton in Hin; discriminate.
    + cbn [fst snd]. exists []. rewrite <- !app_assoc. split; [done|].
      intros other Hin. by apply elem_of_nil in Hin.
Qed.

End PageProperties.

Lemma two_screenshots_example :
  @Page.answer Page.failing [] (Page.pageEvaluate "querySelectorAll" ["h1"; "innerText"])
  = inl "Evaluation failed"
  ∧ (@Page.getMatchingElements Page.failing "h1" "innerText" []).1
    = [Page.pageEvaluate "querySelectorAll" ["h1"; "innerText"];
       Page.takeScreenshot; Page.takeScreenshot].
Proof.
  split; [reflexivity|].
  exact (proj1 (@getMatchingElements_takes_two_screenshots Page.failing
                  "h1" "innerText" "Evaluation failed" [] eq_refl)).
Defined.
